(** * Similarity-weighted grouping of team-hobbies (src/app.py)

    Shallow embedding of [normalize_field], [compute_similarity_ext] and
    [create_groups_ext].  Python floats are modelled as exact rationals
    [Q]; Python sets of strings as [gset string]; a Python dict keyed by
    strings as [gmap string _]; the hosted database as an explicit state
    record threaded through [create_groups_ext]. *)

From Stdlib Require Import QArith Lqa Sorted Permutation Ascii.
From stdpp Require Import base list gmap sets strings pretty.

Set Warnings "-register-all".

(* ------------------------------------------------------------------ *)
(** ** Python values and errors *)

(** JSON-like values as returned by the database driver and by
    [json.loads] (numbers restricted to integers). *)
Inductive json :=
| JNull
| JBool (b : bool)
| JNum (z : Z)
| JStr (s : string)
| JArr (l : list json)
| JObj (kv : list (string * json)).

(** Exceptions that the embedded code can raise. *)
Inductive py_error := ZeroDivisionError | ValueError.

(** A small error monad: [Ok] or a raised exception. *)
Inductive res (A : Type) := Ok (a : A) | Raise (e : py_error).
Arguments Ok {A} _.
Arguments Raise {A} _.

Definition res_bind {A B} (r : res A) (f : A -> res B) : res B :=
  match r with Ok a => f a | Raise e => Raise e end.

Global Instance res_ret : MRet res := fun A a => Ok a.
Global Instance res_mbind : MBind res := fun A B f r => res_bind r f.

(** Python truthiness of a value: [None], [False], [0], the empty string, [[]], [{}]
    are falsy. *)
Definition truthy (x : json) : bool :=
  match x with
  | JNull => false
  | JBool b => b
  | JNum z => negb (Z.eqb z 0)
  | JStr s => negb (String.eqb s EmptyString)
  | JArr l => negb (Nat.eqb (length l) 0)
  | JObj kv => negb (Nat.eqb (length kv) 0)
  end.

Definition join_comma (l : list string) : string :=
  match l with
  | [] => EmptyString
  | x :: t => foldl (fun acc s => String.append acc (String.append ", " s)) x t
  end.

(** Python [repr] of a value nested in a container (string escaping
    not modelled). *)
Fixpoint py_repr (x : json) : string :=
  match x with
  | JNull => "None"
  | JBool true => "True"
  | JBool false => "False"
  | JNum z => pretty z
  | JStr s => String.append "'" (String.append s "'")
  | JArr l => String.append "[" (String.append (join_comma (map py_repr l)) "]")
  | JObj kv =>
      String.append "{"
        (String.append
           (join_comma (map (fun '(k, v) =>
              String.append "'" (String.append k (String.append "': " (py_repr v)))) kv))
           "}")
  end.

(** Python [str(x)]. *)
Definition py_str (x : json) : string :=
  match x with
  | JStr s => s
  | _ => py_repr x
  end.

(** Python [a / b] on numbers: raises [ZeroDivisionError] on a zero
    divisor. *)
Definition py_div (a b : Q) : res Q :=
  if Qeq_bool b 0%Q then Raise ZeroDivisionError else Ok (Qdiv a b).

Definition Q_of_nat (n : nat) : Q := inject_Z (Z.of_nat n).

(** Python truthiness of a set: [len(s) != 0]. *)
Definition set_truthy (s : gset string) : bool := negb (Nat.eqb (size s) 0).

(* ------------------------------------------------------------------ *)
(** ** Profiles and weights *)

(** A row of the [profiles] table as selected by [create_groups_ext]
    ([id, approccio, hobby, materie_fatte, materie_dafare, obiettivi,
    future_role]).  [approccio] and [future_role] are text columns
    ([None] or a [str]; a missing key reads as [None] through [p.get]);
    the set-valued columns may hold a list, a (JSON) string or [None]. *)
Record profile := {
  pid : string;
  approccio : option string;
  hobby : json;
  materie_fatte : json;
  materie_dafare : json;
  obiettivi : json;
  future_role : option string
}.

(** Truthiness of a nullable text value. *)
Definition text_truthy (x : option string) : bool :=
  match x with Some s => negb (String.eqb s EmptyString) | None => false end.

(** Python [==] on nullable text values. *)
Definition text_eqb (x y : option string) : bool :=
  match x, y with
  | Some a, Some b => String.eqb a b
  | None, None => true
  | _, _ => false
  end.

(** [weights.get(k, 0)]. *)
Definition wget (weights : gmap string Q) (k : string) : Q :=
  default 0%Q (weights !! k).

(* ------------------------------------------------------------------ *)
(** ** List primitives of the grouping step *)

(** [l[i:j]] for [i <= j]. *)
Definition slice {A} (l : list A) (i j : nat) : list A := take (j - i) (drop i l).

(** [range(0, n, step)] for [step > 0]: [k * step] for
    [k < ceil(n / step)]. *)
Definition range_step (n step : nat) : list nat :=
  map (fun k => k * step) (seq 0 ((n + step - 1) / step)).

(** [range(0, n, step)] for an arbitrary [int] step: a zero step raises
    [ValueError], a negative one gives the empty range. *)
Definition py_range (n : nat) (step : Z) : res (list nat) :=
  if Z.eqb step 0 then Raise ValueError
  else if Z.ltb step 0 then Ok []
  else Ok (range_step n (Z.to_nat step)).

(** The serpentine loop of [create_groups_ext]:
<<
    bucketed = []
    for i in range(0, len(students), group_size):
        chunk = students[i:i + group_size]
        if (i // group_size) % 2 == 1:
            chunk.reverse()
        bucketed.extend(chunk)
>> *)
Definition serpentine {A} (group_size : Z) (students : list A) : res (list A) :=
  idx ← py_range (length students) group_size;
  let gs := Z.to_nat group_size in
  mret (concat (map (fun i =>
          let chunk := slice students i (i + gs) in
          if Nat.eqb ((i / gs) mod 2) 1 then rev chunk else chunk) idx)).

(** [groups = [bucketed[i:i + group_size] for i in range(0, len(bucketed), group_size)]] *)
Definition slice_groups {A} (group_size : Z) (bucketed : list A)
    : res (list (list A)) :=
  idx ← py_range (length bucketed) group_size;
  let gs := Z.to_nat group_size in
  mret (map (fun i => slice bucketed i (i + gs)) idx).

(** [list.sort(key=key, reverse=True)]: a stable sort in descending order
    of the key (elements with equal keys keep their original order),
    written as an insertion sort over the input from left to right. *)
Fixpoint insert_desc {A} (key : A -> Q) (x : A) (l : list A) : list A :=
  match l with
  | [] => [x]
  | y :: t => if negb (Qle_bool (key x) (key y)) then x :: y :: t else y :: insert_desc key x t
  end.

Definition sort_desc {A} (key : A -> Q) (l : list A) : list A :=
  foldl (fun acc x => insert_desc key x acc) [] l.

(** A Python dict with string keys, in insertion order; assigning an
    existing key keeps its position and replaces its value. *)
Fixpoint dict_set {V} (k : string) (v : V) (d : list (string * V))
    : list (string * V) :=
  match d with
  | [] => [(k, v)]
  | (k', v') :: t => if String.eqb k k' then (k, v) :: t else (k', v') :: dict_set k v t
  end.

(** [profiles = {p["id"]: p for p in data}] *)
Definition profiles_dict (data : list profile) : list (string * profile) :=
  foldl (fun d p => dict_set (pid p) p d) [] data.

(* ------------------------------------------------------------------ *)
(** ** Database state *)

(** A row of the [gruppi] table (the cosmetic columns [nome_gruppo],
    [tema] and [data_creazione] are not modelled). *)
Record group_row := {
  sessione_id : string;
  membri : list string;
  pesi : gmap string Q
}.

(** The tables read and written by [create_groups_ext]: [nicknames] as
    [(id, session_id)] pairs, [profiles] and [gruppi]. *)
Record db := {
  nicknames : list (string * string);
  profiles_tbl : list profile;
  gruppi : list group_row
}.

(** Messages shown through [st.warning] / [st.success]. *)
Inductive msg := Warning (s : string) | Success (ngroups : nat).

(** [nicknames.select("id").eq("session_id", session_id)] *)
Definition session_nick_ids (session_id : string) (d : db) : list string :=
  map fst (filter (fun n => snd n = session_id) (nicknames d)).

(** [profiles.select(...).in_("id", nick_ids)] *)
Definition query_profiles (nick_ids : list string) (d : db) : list profile :=
  filter (fun p => pid p ∈ nick_ids) (profiles_tbl d).

(** The profiles of a session: the rows of [profiles] whose id is a
    nickname of the session. *)
Definition session_profiles (session_id : string) (d : db) : list profile :=
  query_profiles (session_nick_ids session_id d) d.

(** The member lists of the groups stored for a session. *)
Definition session_groups (session_id : string) (d : db) : list (list string) :=
  map membri (filter (fun r => sessione_id r = session_id) (gruppi d)).

(* ------------------------------------------------------------------ *)
(** ** A [json.loads] for concrete runs *)

(** The development is parametric in [json.loads]; concrete runs use this
    parser of a JSON subset (null, booleans, integers, strings without
    escapes, arrays), which agrees with [json.loads] on the inputs used
    below. *)
Definition is_ws (c : Ascii.ascii) : bool :=
  let n := Ascii.nat_of_ascii c in
  (n =? 32) || (n =? 10) || (n =? 13) || (n =? 9).

Definition is_char (c : Ascii.ascii) (code : nat) : bool :=
  Nat.eqb (Ascii.nat_of_ascii c) code.

Fixpoint skip_ws (s : string) : string :=
  match s with
  | String c t => if is_ws c then skip_ws t else s
  | EmptyString => s
  end.

Definition digit_of (c : Ascii.ascii) : option Z :=
  let n := Ascii.nat_of_ascii c in
  if (48 <=? n) && (n <=? 57) then Some (Z.of_nat (n - 48)) else None.

Fixpoint lex_digits (acc : Z) (s : string) : Z * string :=
  match s with
  | String c t =>
      match digit_of c with
      | Some d => lex_digits (acc * 10 + d)%Z t
      | None => (acc, s)
      end
  | EmptyString => (acc, s)
  end.

Fixpoint lex_string (acc : string) (s : string) : option (string * string) :=
  match s with
  | String c t =>
      if is_char c 34 then Some (acc, t)
      else if is_char c 92 then None
      else lex_string (String.append acc (String c EmptyString)) t
  | EmptyString => None
  end.

Fixpoint parse_value (fuel : nat) (s : string) : option (json * string) :=
  match fuel with
  | O => None
  | S f =>
    let s0 := skip_ws s in
    match s0 with
    | String "n"%char (String "u"%char (String "l"%char (String "l"%char t))) => Some (JNull, t)
    | String "t"%char (String "r"%char (String "u"%char (String "e"%char t))) => Some (JBool true, t)
    | String "f"%char (String "a"%char (String "l"%char (String "s"%char (String "e"%char t)))) =>
        Some (JBool false, t)
    | String c t =>
      if is_char c 34 then
        match lex_string EmptyString t with Some (v, r) => Some (JStr v, r) | None => None end
      else if is_char c 91 then
        match skip_ws t with
        | String "]"%char r => Some (JArr [], r)
        | _ => parse_items f [] t
        end
      else if is_char c 45 then
        match t with
        | String c' _ =>
            match digit_of c' with
            | Some _ => let '(z, r) := lex_digits 0 t in Some (JNum (- z), r)
            | None => None
            end
        | EmptyString => None
        end
      else match digit_of c with
           | Some _ => let '(z, r) := lex_digits 0 s0 in Some (JNum z, r)
           | None => None
           end
    | EmptyString => None
    end
  end
with parse_items (fuel : nat) (acc : list json) (s : string)
    : option (json * string) :=
  match fuel with
  | O => None
  | S f =>
    match parse_value f s with
    | Some (v, r) =>
        match skip_ws r with
        | String ","%char r' => parse_items f (acc ++ [v]) r'
        | String "]"%char r' => Some (JArr (acc ++ [v]), r')
        | _ => None
        end
    | None => None
    end
  end.

Definition json_loads_subset (s : string) : option json :=
  match parse_value (S (String.length s)) s with
  | Some (v, r) => if String.eqb (skip_ws r) EmptyString then Some v else None
  | None => None
  end.

(* ------------------------------------------------------------------ *)
(** ** [normalize_field] and [compute_similarity_ext] *)

Section Program.

(** [json.loads]: [None] when it raises. *)
Variable json_loads : string -> option json.

(** [normalize_field(x)]:
<<
    if not x: return set()
    if isinstance(x, list): return set([str(i) for i in x])
    if isinstance(x, str):
        try:
            parsed = json.loads(x)
            if isinstance(parsed, list): return set([str(i) for i in parsed])
        except Exception:
            return {x}
    return {str(x)}
>> *)
Definition normalize_field (x : json) : gset string :=
  if negb (truthy x) then ∅
  else match x with
  | JArr l => list_to_set (map py_str l)
  | JStr s =>
      match json_loads s with
      | Some (JArr l) => list_to_set (map py_str l)
      | Some _ => {[ py_str x ]}
      | None => {[ s ]}
      end
  | _ => {[ py_str x ]}
  end.

(** The Jaccard step repeated for hobby, materie and obiettivi:
<<
    if s1 or s2:
        score += weights.get(k, 0) * (len(s1 & s2) / len(s1 | s2))
>> *)
Definition add_jaccard (weights : gmap string Q) (k : string)
    (s1 s2 : gset string) (score : Q) : res Q :=
  if set_truthy s1 || set_truthy s2 then
    j ← py_div (Q_of_nat (size (s1 ∩ s2))) (Q_of_nat (size (s1 ∪ s2)));
    mret (score + wget weights k * j)%Q
  else mret score.

(** [compute_similarity_ext(p1, p2, weights)]. *)
Definition compute_similarity_ext (p1 p2 : profile) (weights : gmap string Q)
    : res Q :=
  let score := 0%Q in
  (* Hobby: Jaccard *)
  let h1 := normalize_field (hobby p1) in
  let h2 := normalize_field (hobby p2) in
  score ← add_jaccard weights "hobby" h1 h2 score;
  (* Approccio: 1 if equal *)
  let score :=
    if text_truthy (approccio p1) && text_truthy (approccio p2) then
      (score + wget weights "approccio"
               * (if text_eqb (approccio p1) (approccio p2) then 1 else 0))%Q
    else score in
  (* Materie: union of fatte and dafare *)
  let m1 := normalize_field (materie_fatte p1) ∪ normalize_field (materie_dafare p1) in
  let m2 := normalize_field (materie_fatte p2) ∪ normalize_field (materie_dafare p2) in
  score ← add_jaccard weights "materie" m1 m2 score;
  (* Obiettivi *)
  let o1 := normalize_field (obiettivi p1) in
  let o2 := normalize_field (obiettivi p2) in
  score ← add_jaccard weights "obiettivi" o1 o2 score;
  (* Ruolo futuro *)
  let fr1 := future_role p1 in
  let fr2 := future_role p2 in
  let score :=
    if text_truthy fr1 && text_truthy fr2 then
      (score + wget weights "future_role" * (if text_eqb fr1 fr2 then 1 else 0))%Q
    else score in
  mret score.

(** The average similarity of [p] to the other students:
<<
    scores = [compute_similarity_ext(p, q, weights) for q in students if q["id"] != p["id"]]
    avg_score[p["id"]] = sum(scores) / len(scores) if scores else 0.0
>> *)
Definition avg_of (weights : gmap string Q) (students : list profile)
    (p : profile) : res Q :=
  scores ← mapM (fun q => compute_similarity_ext p q weights)
                (filter (fun q => pid q <> pid p) students);
  match scores with
  | [] => mret 0%Q
  | _ => py_div (foldl Qplus 0%Q scores) (Q_of_nat (length scores))
  end.

(** The loop [for p in students: avg_score[p["id"]] = ...]. *)
Fixpoint fill_avg (weights : gmap string Q) (students todo : list profile)
    (avg_score : gmap string Q) : res (gmap string Q) :=
  match todo with
  | [] => mret avg_score
  | p :: t =>
      a ← avg_of weights students p;
      fill_avg weights students t (<[pid p := a]> avg_score)
  end.

(** The writes of [create_groups_ext]: delete the session's rows of
    [gruppi], then insert one row per group with its member ids and the
    weights. *)
Definition replace_groups (session_id : string) (weights : gmap string Q)
    (groups : list (list profile)) (d : db) : db :=
  let kept := filter (fun r => sessione_id r <> session_id) (gruppi d) in
  let rows := map (fun grp => {| sessione_id := session_id;
                                 membri := map pid grp;
                                 pesi := weights |}) groups in
  {| nicknames := nicknames d; profiles_tbl := profiles_tbl d;
     gruppi := kept ++ rows |}.

(** [create_groups_ext(session_id, group_size, weights)] on a database
    state: the new state and the messages shown.  The queries are
    assumed to succeed (the fallback select without [future_role] and the
    failure of a group insert are not modelled), as is the local
    [published_sessions] flag. *)
Definition create_groups_ext (session_id : string) (group_size : Z)
    (weights : gmap string Q) (d : db) : res (db * list msg) :=
  let nick_ids := session_nick_ids session_id d in
  match nick_ids with
  | [] => mret (d, [Warning "Nessun partecipante ha effettuato la scansione."])
  | _ =>
    let profiles := profiles_dict (query_profiles nick_ids d) in
    match profiles with
    | [] => mret (d, [Warning "Nessun profilo completato. Non e possibile creare i gruppi."])
    | _ =>
      let students := map snd profiles in
      avg_score ← fill_avg weights students students ∅;
      let students := sort_desc (fun x => default 0%Q (avg_score !! pid x)) students in
      bucketed ← serpentine group_size students;
      groups ← slice_groups group_size bucketed;
      mret (replace_groups session_id weights groups d, [Success (length groups)])
    end
  end.

End Program.

(* ------------------------------------------------------------------ *)
(** ** [get_user_group] *)

(** Python's [sub in s] on two strings. *)
Fixpoint str_contains (sub s : string) : bool :=
  String.prefix sub s ||
  match s with String _ t => str_contains sub t | EmptyString => false end.

(** Python's [nickname_id in members] with a [str] on the left: element
    equality on a list, key membership on a dict, a substring test on a
    string; on [None], a number or a boolean it raises [TypeError]
    ([None] here). *)
Definition py_in_str (x : string) (members : json) : option bool :=
  match members with
  | JArr l => Some (existsb (fun v => match v with JStr s => String.eqb s x | _ => false end) l)
  | JObj kv => Some (existsb (fun e => String.eqb e.1 x) kv)
  | JStr s => Some (str_contains x s)
  | _ => None
  end.

Section UserGroup.

Variable json_loads : string -> option json.

(** The normalisation of [raw = g.get("membri")] in [get_user_group]:
<<
    if isinstance(raw, str):
        try: members = json.loads(raw)
        except Exception: members = []
    elif isinstance(raw, list): members = raw
    else: members = []
>> *)
Definition decode_membri (raw : json) : json :=
  match raw with
  | JStr s => match json_loads s with Some v => v | None => JArr [] end
  | JArr _ => raw
  | _ => JArr []
  end.

(** The loop of [get_user_group] over the selected rows (their raw
    [membri] values, [None] for a missing key): the decoded members of
    the first row whose members hold the nickname.  A [TypeError] raised
    by [in] is caught by the outer [except Exception: pass], which ends
    the search: the function then returns [None]. *)
Fixpoint find_user_group (nickname_id : string) (rows : list json) : option json :=
  match rows with
  | [] => None
  | raw :: t =>
      let members := decode_membri raw in
      match py_in_str nickname_id members with
      | Some true => Some members
      | Some false => find_user_group nickname_id t
      | None => None
      end
  end.

End UserGroup.


(* ------------------------------------------------------------------ *)
(** ** [get_ready_ids] *)


(* ------------------------------------------------------------------ *)
(** ** [create_nickname] *)

Section Nickname.

(** Python's [int(val)] on a [code4] value: [None] when it raises. *)
Variable py_int : json -> option Z.

(** The code computation of [create_nickname]:
<<
    try:
        res = supabase.table("nicknames").select("code4").eq(...).execute()
        existing = []
        for r in (res.data or []):
            val = r.get("code4")
            try: existing.append(int(val))
            except Exception: continue
        next_code = (max(existing) + 1) if existing else 0
        if next_code > 99999:
            raise ValueError("Limite massimo 99999 raggiunto per questa sessione.")
    except Exception as e:
        st.warning(f"Errore nel calcolo del prossimo codice: {e}")
        next_code = int(datetime.now().strftime("%H%M%S")) % 100000
>>
    [codes] are the [code4] values read, [None] when the select raises;
    [hms] is [int(datetime.now().strftime("%H%M%S"))].  The result is the
    code and whether the warning is shown. *)
Definition next_code (codes : option (list json)) (hms : Z) : Z * bool :=
  let fallback := ((hms mod 100000)%Z, true) in
  match codes with
  | None => fallback
  | Some vals =>
      let existing := omap py_int vals in
      let nc := match existing with
                | [] => 0%Z
                | x :: t => (foldl Z.max x t + 1)%Z
                end in
      if (nc >? 99999)%Z then fallback else (nc, false)
  end.

(** The insert of the [nicknames] row with [code4 = c]: [None] when it
    raises, else [res_ins.data]. *)
Variable insert : Z -> option (list json).



End Nickname.

(* ------------------------------------------------------------------ *)
(** ** [save_profile]: the [text[]] columns *)

(** [to_list(x)] of [save_profile]:
<<
    if x is None: return []
    if isinstance(x, (list, tuple, set)):
        return ["" if v is None else str(v) for v in x]
    return [str(x)]
>>
    (a list or tuple as [JArr]; Python sets are not modelled). *)
Definition to_list (x : json) : list string :=
  match x with
  | JNull => []
  | JArr l => map (fun v => match v with JNull => EmptyString | _ => py_str v end) l
  | _ => [py_str x]
  end.

(** A [text[]] column holding a list of strings, as the driver reads it
    back. *)
Definition text_array (l : list string) : json := JArr (map JStr l).

(* ------------------------------------------------------------------ *)
(** ** [build_join_url] *)

(** [s.endswith("/")]. *)
Definition ends_with_slash (s : string) : bool :=
  String.eqb (String.substring (String.length s - 1) 1 s) "/".

(** [build_join_url(session_id)], with [st.secrets] as a map:
<<
    base = st.secrets.get("PUBLIC_URL",
                          st.secrets.get("PUBLIC_BASE_URL", "http://localhost:8501"))
    if not base.endswith("/"): base += "/"
    return f"{base}?session_id={session_id}"
>> *)
Definition build_join_url (secrets : gmap string string) (session_id : string) : string :=
  let base := default (default "http://localhost:8501" (secrets !! "PUBLIC_BASE_URL"))
                      (secrets !! "PUBLIC_URL") in
  let base := if ends_with_slash base then base else String.append base "/" in
  String.append base (String.append "?session_id=" session_id).

(* ------------------------------------------------------------------ *)
(** ** Resetting and resuming a session *)

(** [c.isspace()] for a character of code point below 256. *)
Definition py_isspace (c : Ascii.ascii) : bool :=
  let n := Ascii.nat_of_ascii c in
  ((9 <=? n) && (n <=? 13)) || ((28 <=? n) && (n <=? 32)) || (n =? 133) || (n =? 160).

Fixpoint lstrip (s : string) : string :=
  match s with
  | String c t => if py_isspace c then lstrip t else s
  | EmptyString => s
  end.

(** [s.strip()]. *)
Definition py_strip (s : string) : string := String.rev (lstrip (String.rev (lstrip s))).

(** The keys of [st.session_state] that [reset_teacher_session] deletes:
    [k.startswith(("teacher_", "student_")) or k in ["published_sessions"]]. *)
Definition teacher_reset_key (k : string) : bool :=
  String.prefix "teacher_" k || String.prefix "student_" k ||
  String.eqb k "published_sessions".

(** [cookies.pop(k, None)] for every [k] of a list. *)
Definition pop_all (cookies : gmap string string) (ks : list string) : gmap string string :=
  foldl (fun c k => delete k c) cookies ks.

(** [reset_teacher_session()] on [st.session_state] and the cookies (up to
    [st.rerun()], which ends the run; the query parameters are not
    modelled). *)
Definition reset_teacher_session (ss : gmap string json) (cookies : gmap string string)
    : gmap string json * gmap string string :=
  let ss := <["_teacher_reset_in_progress" := JBool true]> ss in
  let ss := filter (fun kv => teacher_reset_key kv.1 = false) ss in
  let cookies := pop_all cookies
    ["teacher_session_id"; "teacher_group_size"; "student_session_id";
     "student_nickname_id"; "student_pin"; "student_session_expiry"] in
  (ss, cookies).

(** [reset_student_session()]. *)
Definition reset_student_session (ss : gmap string json) (cookies : gmap string string)
    : gmap string json * gmap string string :=
  let ss := <["_student_reset_in_progress" := JBool true]> ss in
  let ss := filter (fun kv => String.prefix "student_" kv.1 = false) ss in
  let cookies := pop_all cookies
    ["student_session_id"; "student_nickname_id"; "student_pin"; "student_session_expiry"] in
  (ss, cookies).

(** [resume_teacher_from_cookie()] on [st.session_state] (up to
    [st.rerun()]):
<<
    if st.session_state.get("_teacher_reset_in_progress"):
        st.session_state.pop("_teacher_reset_in_progress", None)
        return
    tc = cookies.get("teacher_session_id")
    if tc and tc.strip():
        st.session_state["teacher_session_id"] = tc
>> *)
Definition resume_teacher_from_cookie (ss : gmap string json) (cookies : gmap string string)
    : gmap string json :=
  if default false (truthy <$> ss !! "_teacher_reset_in_progress")
  then delete "_teacher_reset_in_progress" ss
  else match cookies !! "teacher_session_id" with
       | Some tc =>
           if negb (String.eqb tc EmptyString) && negb (String.eqb (py_strip tc) EmptyString)
           then <["teacher_session_id" := JStr tc]> ss
           else ss
       | None => ss
       end.

(* ------------------------------------------------------------------ *)
(** ** Group names *)

(** [THEME_GROUP_NAMES]. *)
Definition THEME_GROUP_NAMES : list (string * list string) :=
  [("Anime", ["Akira"; "Totoro"; "Naruto"; "Luffy"; "Saitama"; "Asuka"; "Shinji"; "Kenshin"]);
   ("Sport", ["Maradona"; "Jordan"; "Federer"; "Bolt"; "Ali"; "Phelps"; "Serena"]);
   ("Spazio", ["Apollo"; "Orion"; "Luna"; "Cosmos"; "Nova"; "Mars"]);
   ("Natura", ["Quercia"; "Rosa"; "Vento"; "Onda"; "Sole"; "Mare"; "Cielo"]);
   ("Tecnologia", ["Byte"; "Pixel"; "Quantum"; "Neural"; "Circuit"; "Code"]);
   ("Storia", ["Roma"; "Atene"; "Sparta"; "Troia"; "Cartagine"; "Babilonia"]);
   ("Mitologia", ["Zeus"; "Athena"; "Thor"; "Ra"; "Anubi"; "Odino"])].

(** [d.get(k)] on a dict literal. *)
Fixpoint dict_get {V} (k : string) (d : list (string * V)) : option V :=
  match d with
  | [] => None
  | (k', v) :: t => if String.eqb k k' then Some v else dict_get k t
  end.

(** The names given to the [ngroups] groups by [create_groups_ext]:
<<
    names_pool = THEME_GROUP_NAMES.get(theme, [f"Gruppo {i+1}" for i in range(len(groups))])
    for idx, grp in enumerate(groups):
        nome = names_pool[idx % len(names_pool)]
>> *)
Definition group_names (theme : string) (ngroups : nat) : res (list string) :=
  let names_pool :=
    default (map (fun i => String.append "Gruppo " (pretty (i + 1))) (seq 0 ngroups))
            (dict_get theme THEME_GROUP_NAMES) in
  mapM (fun idx =>
          if Nat.eqb (length names_pool) 0 then Raise ZeroDivisionError
          else mret (nth (idx mod length names_pool) names_pool EmptyString))
       (seq 0 ngroups).

(* ------------------------------------------------------------------ *)
(** ** Vocabulary of the statements *)

(** [ceil(n / gs)]: the number of chunks of [range(0, n, gs)]. *)
Definition div_up (n gs : nat) : nat := (n + gs - 1) / gs.

(** The [k]-th chunk [l[k*gs : k*gs + gs]]. *)
Definition chunk {A} (gs : nat) (l : list A) (k : nat) : list A :=
  slice l (k * gs) (k * gs + gs).

(** The [k]-th chunk as the serpentine loop leaves it. *)
Definition serp_chunk {A} (gs : nat) (l : list A) (k : nat) : list A :=
  if Nat.eqb (k mod 2) 1 then rev (chunk gs l k) else chunk gs l k.

(** Python [==] on the [float] sort keys. *)
Global Instance Qeq_decision : RelDecision Qeq := Qeq_dec.

(** The groups stored for a session after a run of [create_groups_ext],
    or [None] when the run raises. *)
Definition run_session_groups (json_loads : string -> option json)
    (session_id : string) (group_size : Z) (weights : gmap string Q) (d : db)
    : option (list (list string)) :=
  match create_groups_ext json_loads session_id group_size weights d with
  | Ok (d', _) => Some (session_groups session_id d')
  | Raise _ => None
  end.

(** A profile with nothing filled in. *)
Definition blank_profile (i : string) : profile :=
  {| pid := i; approccio := None; hobby := JNull; materie_fatte := JNull;
     materie_dafare := JNull; obiettivi := JNull; future_role := None |}.

Definition w_hobby_only : gmap string Q := {[ "hobby" := 1%Q ]}.

(** Five participants of session "S" with blank profiles, no groups yet. *)
Definition db_five : db :=
  {| nicknames := map (fun i => (i, "S")) ["a"; "b"; "c"; "d"; "e"];
     profiles_tbl := map blank_profile ["a"; "b"; "c"; "d"; "e"];
     gruppi := [] |}.

(** Session "S" with two participants that have not filled in a profile,
    and a group stored by an earlier run. *)
Definition db_no_profiles : db :=
  {| nicknames := [("a", "S"); ("b", "S")];
     profiles_tbl := [];
     gruppi := [{| sessione_id := "S"; membri := ["x"; "y"]; pesi := ∅ |}] |}.

(** Sessions "S" (five participants with blank profiles and a group from
    an earlier run) and "T" (one participant and its group). *)
Definition db_two : db :=
  {| nicknames := map (fun i => (i, "S")) ["a"; "b"; "c"; "d"; "e"] ++ [("t", "T")];
     profiles_tbl := map blank_profile ["a"; "b"; "c"; "d"; "e"; "t"];
     gruppi := [{| sessione_id := "S"; membri := ["x"; "y"]; pesi := ∅ |};
                {| sessione_id := "T"; membri := ["t"]; pesi := ∅ |}] |}.

(** The state after [create_groups_ext "S" 2] on [db_two]. *)
Definition db_two_after : db :=
  Eval vm_compute in
    match create_groups_ext json_loads_subset "S" 2 w_hobby_only db_two with
    | Ok (d', _) => d'
    | Raise _ => db_two
    end.

(** Python's [int(val)] on the values used below: integers, booleans and
    strings holding an integer ([None] when [int] raises). *)
Definition py_int_subset (v : json) : option Z :=
  match v with
  | JNum z => Some z
  | JBool b => Some (if b then 1%Z else 0%Z)
  | JStr s => match json_loads_subset s with Some (JNum z) => Some z | _ => None end
  | _ => None
  end.


(** The largest value [compute_similarity_ext] can reach: the sum of the
    weights of its five categories. *)
Definition sim_total (w : gmap string Q) : Q :=
  wget w "hobby" + wget w "approccio" + wget w "materie" + wget w "obiettivi"
  + wget w "future_role".

(** Weights as the sliders of the teacher page may set them. *)
Definition w_sliders : gmap string Q :=
  {[ "hobby" := 1%Q; "approccio" := (1#2)%Q; "materie" := (1#2)%Q;
     "obiettivi" := (1#4)%Q; "future_role" := 1%Q ]}.

(** Two filled-in profiles. *)
Definition prof_anna : profile :=
  {| pid := "anna"; approccio := Some "pratico";
     hobby := JArr [JStr "calcio"; JStr "musica"];
     materie_fatte := JArr [JStr "analisi"]; materie_dafare := JNull;
     obiettivi := JStr "crescere"; future_role := Some "developer" |}.

Definition prof_bruno : profile :=
  {| pid := "bruno"; approccio := Some "teorico";
     hobby := JArr [JStr "musica"];
     materie_fatte := JArr [JStr "analisi"]; materie_dafare := JArr [JStr "fisica"];
     obiettivi := JNull; future_role := Some "developer" |}.

(* ================================================================== *)
(** * Similarity *)

Lemma Q_of_nat_eq0 (n : nat) : Qeq_bool (Q_of_nat n) 0%Q = true -> n = 0.
Proof.
  intros H. apply Qeq_bool_iff in H. unfold Q_of_nat, Qeq in H. simpl in H. lia.
Qed.

Lemma size_union_pos (s1 s2 : gset string) :
  set_truthy s1 || set_truthy s2 = true -> size (s1 ∪ s2) <> 0.
Proof.
  unfold set_truthy. intros H Hz.
  apply size_empty_iff in Hz.
  apply orb_true_iff in H as [H|H]; apply negb_true_iff, Nat.eqb_neq in H;
    apply H, size_empty_iff; set_solver.
Qed.

Lemma add_jaccard_ok (w : gmap string Q) k s1 s2 score :
  exists q, add_jaccard w k s1 s2 score = Ok q.
Proof.
  unfold add_jaccard. destruct (set_truthy s1 || set_truthy s2) eqn:E.
  - unfold py_div. destruct (Qeq_bool _ 0%Q) eqn:Z.
    + apply Q_of_nat_eq0 in Z. exfalso. by apply (size_union_pos s1 s2).
    + by eexists.
  - by eexists.
Qed.

Lemma add_jaccard_comm (w : gmap string Q) k s1 s2 score :
  add_jaccard w k s1 s2 score = add_jaccard w k s2 s1 score.
Proof.
  unfold add_jaccard. rewrite orb_comm.
  assert (s1 ∪ s2 = s2 ∪ s1) as -> by set_solver.
  assert (s1 ∩ s2 = s2 ∩ s1) as -> by set_solver.
  reflexivity.
Qed.

Lemma text_eqb_comm x y : text_eqb x y = text_eqb y x.
Proof. destruct x, y; simpl; try reflexivity. apply String.eqb_sym. Qed.

Lemma compute_similarity_ext_ok json_loads (a b : profile) (w : gmap string Q) :
  exists q, compute_similarity_ext json_loads a b w = Ok q.
Proof.
  unfold compute_similarity_ext. cbn [mbind res_mbind].
  destruct (add_jaccard_ok w "hobby" (normalize_field json_loads (hobby a))
              (normalize_field json_loads (hobby b)) 0%Q) as [q1 ->]; simpl.
  match goal with |- context [add_jaccard w "materie" ?x ?y ?s] =>
    destruct (add_jaccard_ok w "materie" x y s) as [q2 ->] end; simpl.
  match goal with |- context [add_jaccard w "obiettivi" ?x ?y ?s] =>
    destruct (add_jaccard_ok w "obiettivi" x y s) as [q3 ->] end; simpl.
  by eexists.
Qed.

(** C8: [compute_similarity_ext] is total: for all profiles, also those
    whose set-valued fields are all empty, no Jaccard division raises
    [ZeroDivisionError], because each one is guarded by the non-emptiness
    of one of the two sets, hence of their union. *)
Theorem compute_similarity_ext_total json_loads (a b : profile)
    (w : gmap string Q) :
  exists q, compute_similarity_ext json_loads a b w = Ok q.
Proof. apply compute_similarity_ext_ok. Qed.

(** C6: [compute_similarity_ext] is symmetric in its two profiles. *)
Theorem compute_similarity_ext_sym json_loads (a b : profile)
    (w : gmap string Q) :
  compute_similarity_ext json_loads a b w = compute_similarity_ext json_loads b a w.
Proof.
  unfold compute_similarity_ext. cbn [mbind res_mbind].
  rewrite (add_jaccard_comm w "hobby" (normalize_field json_loads (hobby a))).
  destruct (add_jaccard w "hobby" _ _ 0%Q) as [q1|e]; simpl; [|reflexivity].
  rewrite (andb_comm (text_truthy (approccio a))), (text_eqb_comm (approccio a)).
  match goal with |- context [add_jaccard w "materie" ?x ?y ?s] =>
    rewrite (add_jaccard_comm w "materie" x y s);
    destruct (add_jaccard w "materie" y x s) as [q2|e]; simpl; [|reflexivity] end.
  match goal with |- context [add_jaccard w "obiettivi" ?x ?y ?s] =>
    rewrite (add_jaccard_comm w "obiettivi" x y s);
    destruct (add_jaccard w "obiettivi" y x s) as [q3|e]; simpl; [|reflexivity] end.
  rewrite (andb_comm (text_truthy (future_role a))), (text_eqb_comm (future_role a)).
  reflexivity.
Qed.

Lemma wget_insert_ne (w : gmap string Q) k k' c :
  k <> k' -> wget (<[k:=c]> w) k' = wget w k'.
Proof. intros H. unfold wget. by rewrite lookup_insert_ne. Qed.

Lemma add_jaccard_weight (w w' : gmap string Q) k s1 s2 score :
  wget w k = wget w' k -> add_jaccard w k s1 s2 score = add_jaccard w' k s1 s2 score.
Proof. intros H. unfold add_jaccard. by rewrite H. Qed.

Lemma add_jaccard_empty (w : gmap string Q) k score :
  add_jaccard w k ∅ ∅ score = Ok score.
Proof. reflexivity. Qed.

(** C2 (counterexample): both hobby sets are empty, the hobby weight is 1
    and every other category is absent, yet the similarity is 0: the
    empty hobby category adds nothing, not its full weight. *)
Lemma compute_similarity_ext_empty_hobby_adds_nothing :
  normalize_field json_loads_subset (hobby (blank_profile "a")) = ∅ /\
  normalize_field json_loads_subset (hobby (blank_profile "b")) = ∅ /\
  wget w_hobby_only "hobby" = 1%Q /\
  compute_similarity_ext json_loads_subset (blank_profile "a") (blank_profile "b")
    w_hobby_only = Ok 0%Q /\
  ~ (0 == 1)%Q.
Proof. repeat split; try reflexivity. discriminate. Qed.

(** C2 (amended): when both normalized hobby sets, or both normalized
    obiettivi (goals) sets, are empty, that category contributes nothing
    to [compute_similarity_ext]: its weight can be set to any value
    without changing the result (its sub-score is 0). *)
Theorem compute_similarity_ext_empty_category_ignored json_loads
    (a b : profile) (w : gmap string Q) (c : Q) :
  (normalize_field json_loads (hobby a) = ∅ ->
   normalize_field json_loads (hobby b) = ∅ ->
   compute_similarity_ext json_loads a b (<["hobby" := c]> w)
   = compute_similarity_ext json_loads a b w) /\
  (normalize_field json_loads (obiettivi a) = ∅ ->
   normalize_field json_loads (obiettivi b) = ∅ ->
   compute_similarity_ext json_loads a b (<["obiettivi" := c]> w)
   = compute_similarity_ext json_loads a b w).
Proof.
  split; intros Ha Hb; unfold compute_similarity_ext; cbn [mbind res_mbind].
  - rewrite Ha, Hb, !add_jaccard_empty. simpl.
    rewrite (wget_insert_ne w "hobby" "approccio") by done.
    match goal with |- context [add_jaccard _ "materie" ?x ?y ?s] =>
      rewrite (add_jaccard_weight _ w "materie" x y s)
        by (apply wget_insert_ne; done);
      destruct (add_jaccard w "materie" x y s) as [q2|e]; simpl; [|reflexivity] end.
    match goal with |- context [add_jaccard _ "obiettivi" ?x ?y ?s] =>
      rewrite (add_jaccard_weight _ w "obiettivi" x y s)
        by (apply wget_insert_ne; done);
      destruct (add_jaccard w "obiettivi" x y s) as [q3|e]; simpl; [|reflexivity] end.
    by rewrite (wget_insert_ne w "hobby" "future_role") by done.
  - match goal with |- context [add_jaccard _ "hobby" ?x ?y ?s] =>
      rewrite (add_jaccard_weight _ w "hobby" x y s)
        by (apply wget_insert_ne; done);
      destruct (add_jaccard w "hobby" x y s) as [q1|e]; simpl; [|reflexivity] end.
    rewrite (wget_insert_ne w "obiettivi" "approccio") by done.
    match goal with |- context [add_jaccard _ "materie" ?x ?y ?s] =>
      rewrite (add_jaccard_weight _ w "materie" x y s)
        by (apply wget_insert_ne; done);
      destruct (add_jaccard w "materie" x y s) as [q2|e]; simpl; [|reflexivity] end.
    rewrite Ha, Hb, !add_jaccard_empty. simpl.
    by rewrite (wget_insert_ne w "obiettivi" "future_role") by done.
Qed.

(** Witness of C2 (amended) on two blank profiles. *)
Lemma compute_similarity_ext_empty_category_ignored_witness :
  normalize_field json_loads_subset (hobby (blank_profile "a")) = ∅ /\
  normalize_field json_loads_subset (hobby (blank_profile "b")) = ∅ /\
  compute_similarity_ext json_loads_subset (blank_profile "a") (blank_profile "b")
    (<["hobby" := 1%Q]> ∅)
  = compute_similarity_ext json_loads_subset (blank_profile "a") (blank_profile "b") ∅.
Proof.
  split; [reflexivity|]. split; [reflexivity|].
  apply (compute_similarity_ext_empty_category_ignored json_loads_subset
           (blank_profile "a") (blank_profile "b") ∅ 1%Q); reflexivity.
Defined.

(* ================================================================== *)
(** * [normalize_field] on strings *)

(** C4 (counterexample): the free-text hobby "sport, musica" is not valid
    JSON, and [normalize_field] turns it into the non-empty set
    [{"sport, musica"}], not the empty set. *)
Lemma normalize_field_unparsable_not_empty :
  json_loads_subset "sport, musica" = None /\
  normalize_field json_loads_subset (JStr "sport, musica") = {[ "sport, musica" ]} /\
  normalize_field json_loads_subset (JStr "sport, musica") <> ∅.
Proof.
  split; [reflexivity|]. split; [reflexivity|].
  change (normalize_field json_loads_subset (JStr "sport, musica"))
    with ({[ "sport, musica" ]} : gset string).
  apply non_empty_singleton_L.
Qed.

(** C4 (amended): [normalize_field] never lets a parse failure escape: a
    non-empty string that [json.loads] cannot parse becomes the singleton
    set holding the raw string, and the empty string becomes the empty
    set. *)
Theorem normalize_field_unparsable json_loads (s : string) :
  (s <> EmptyString -> json_loads s = None ->
   normalize_field json_loads (JStr s) = {[ s ]}) /\
  normalize_field json_loads (JStr EmptyString) = ∅.
Proof.
  split; [|reflexivity].
  intros Hne Hp. unfold normalize_field. simpl.
  destruct (String.eqb s EmptyString) eqn:E.
  - apply String.eqb_eq in E. contradiction.
  - simpl. by rewrite Hp.
Qed.

(** Witness of C4 (amended) on the free-text hobby "sport, musica". *)
Lemma normalize_field_unparsable_witness :
  "sport, musica" <> EmptyString /\ json_loads_subset "sport, musica" = None /\
  normalize_field json_loads_subset (JStr "sport, musica") = {[ "sport, musica" ]}.
Proof.
  split; [discriminate|]. split; [reflexivity|].
  apply (normalize_field_unparsable json_loads_subset "sport, musica");
    [discriminate | reflexivity].
Defined.

(* ================================================================== *)
(** * Chunking: [range], slices and the serpentine loop *)

Section Chunks.

Context {A : Type}.
Variable gs : nat.
Hypothesis gs_pos : 0 < gs.

Lemma div_up_spec n :
  n <= div_up n gs * gs /\ (0 < div_up n gs -> (div_up n gs - 1) * gs < n).
Proof.
  unfold div_up.
  pose proof (Nat.div_mod (n + gs - 1) gs ltac:(lia)) as Hd.
  pose proof (Nat.mod_upper_bound (n + gs - 1) gs ltac:(lia)) as Hm.
  set (q := (n + gs - 1) / gs) in *. set (r := (n + gs - 1) mod gs) in *.
  split; [nia|]. intros Hq. destruct q as [|q']; [lia|]. nia.
Qed.

Lemma range_step_eq n : range_step n gs = map (fun k => k * gs) (seq 0 (div_up n gs)).
Proof. reflexivity. Qed.

Lemma chunk_eq (l : list A) k : chunk gs l k = take gs (drop (k * gs) l).
Proof. unfold chunk, slice. f_equal. lia. Qed.

Lemma length_chunk (l : list A) k :
  length (chunk gs l k) = Nat.min gs (length l - k * gs).
Proof. rewrite chunk_eq, length_take, length_drop. reflexivity. Qed.

Lemma length_serp_chunk (l : list A) k : length (serp_chunk gs l k) = length (chunk gs l k).
Proof. unfold serp_chunk. destruct (Nat.eqb _ 1); [apply length_rev|reflexivity]. Qed.

Lemma serp_chunk_perm (l : list A) k : serp_chunk gs l k ≡ₚ chunk gs l k.
Proof. unfold serp_chunk. destruct (Nat.eqb _ 1); [symmetry; apply Permutation_rev|reflexivity]. Qed.

Lemma concat_chunks_take (l : list A) m :
  concat (map (chunk gs l) (seq 0 m)) = take (m * gs) l.
Proof.
  induction m as [|m IH]; [reflexivity|].
  rewrite seq_S, map_app, concat_app, IH. simpl. rewrite app_nil_r, chunk_eq.
  rewrite take_take_drop. f_equal. lia.
Qed.

Lemma concat_chunks (l : list A) :
  concat (map (chunk gs l) (seq 0 (div_up (length l) gs))) = l.
Proof.
  rewrite concat_chunks_take. apply take_ge. apply div_up_spec.
Qed.

(** Cutting a concatenation of pieces of length [gs] (the last one at most
    [gs]) at multiples of [gs] gives the pieces back. *)
Lemma length_concat_full (F : nat -> list A) k :
  (forall j, j < k -> length (F j) = gs) ->
  length (concat (map F (seq 0 k))) = k * gs.
Proof.
  induction k as [|k IH]; intros H; [reflexivity|].
  rewrite seq_S, map_app, concat_app, length_app, IH by (intros; apply H; lia).
  simpl. rewrite app_nil_r, H by lia. lia.
Qed.

Lemma take_drop_concat (F : nat -> list A) m k :
  k < m ->
  (forall j, j < m - 1 -> length (F j) = gs) ->
  length (F (m - 1)) <= gs ->
  take gs (drop (k * gs) (concat (map F (seq 0 m)))) = F k.
Proof.
  intros Hk Hfull Hlast.
  replace m with (k + S (m - S k)) by lia.
  rewrite seq_app, map_app, concat_app. simpl.
  rewrite drop_app_length'
    by (rewrite length_concat_full; [reflexivity| intros; apply Hfull; lia]).
  destruct (decide (k = m - 1)) as [->|Hne].
  - replace (m - S (m - 1)) with 0 by lia. simpl.
    rewrite app_nil_r. apply take_ge. exact Hlast.
  - rewrite take_app_length'; [reflexivity|]. symmetry. apply Hfull. lia.
Qed.

Lemma length_serp_chunk_full (l : list A) j :
  j < div_up (length l) gs - 1 -> length (serp_chunk gs l j) = gs.
Proof.
  intros Hj. rewrite length_serp_chunk, length_chunk.
  destruct (div_up_spec (length l)) as [_ H]. specialize (H ltac:(lia)).
  assert ((j + 1) * gs <= (div_up (length l) gs - 1) * gs) by (apply Nat.mul_le_mono_r; lia).
  lia.
Qed.

Lemma serpentine_eq (l : list A) :
  serpentine (Z.of_nat gs) l
  = Ok (concat (map (serp_chunk gs l) (seq 0 (div_up (length l) gs)))).
Proof.
  unfold serpentine, py_range.
  destruct (Z.eqb_spec (Z.of_nat gs) 0) as [E|_]; [lia|].
  destruct (Z.ltb_spec (Z.of_nat gs) 0) as [E|_]; [lia|].
  cbn [mbind res_mbind res_bind mret res_ret]. rewrite Nat2Z.id.
  unfold range_step. rewrite map_map. f_equal. f_equal. apply map_ext. intros k.
  unfold serp_chunk, chunk. rewrite Nat.div_mul by lia. reflexivity.
Qed.

Lemma slice_groups_eq (b : list A) :
  slice_groups (Z.of_nat gs) b = Ok (map (chunk gs b) (seq 0 (div_up (length b) gs))).
Proof.
  unfold slice_groups, py_range.
  destruct (Z.eqb_spec (Z.of_nat gs) 0) as [E|_]; [lia|].
  destruct (Z.ltb_spec (Z.of_nat gs) 0) as [E|_]; [lia|].
  cbn [mbind res_mbind res_bind mret res_ret]. rewrite Nat2Z.id.
  unfold range_step. rewrite map_map. reflexivity.
Qed.

Lemma concat_map_perm {B} (f g : B -> list A) (xs : list B) :
  (forall x, f x ≡ₚ g x) -> concat (map f xs) ≡ₚ concat (map g xs).
Proof.
  intros H. induction xs as [|x xs IH]; [reflexivity|]. simpl.
  by apply Permutation_app.
Qed.

Lemma serpentine_concat_perm (l : list A) :
  concat (map (serp_chunk gs l) (seq 0 (div_up (length l) gs))) ≡ₚ l.
Proof.
  transitivity (concat (map (chunk gs l) (seq 0 (div_up (length l) gs)))).
  - apply concat_map_perm. intros k. apply serp_chunk_perm.
  - by rewrite concat_chunks.
Qed.

(** Re-slicing the serpentine output at the same boundaries gives back the
    (possibly reversed) chunks. *)
Lemma serpentine_regroup (l : list A) :
  let b := concat (map (serp_chunk gs l) (seq 0 (div_up (length l) gs))) in
  map (chunk gs b) (seq 0 (div_up (length b) gs))
  = map (serp_chunk gs l) (seq 0 (div_up (length l) gs)).
Proof.
  intros b.
  assert (length b = length l) as Hlen by apply Permutation_length, serpentine_concat_perm.
  rewrite Hlen. apply map_ext_in. intros k Hk. apply in_seq in Hk.
  rewrite chunk_eq. apply take_drop_concat; [lia| |].
  - intros j Hj. by apply length_serp_chunk_full.
  - rewrite length_serp_chunk, length_chunk. lia.
Qed.

Lemma div_up_divmod n :
  div_up n gs = n / gs + (if Nat.eqb (n mod gs) 0 then 0 else 1).
Proof.
  unfold div_up.
  pose proof (Nat.div_mod n gs ltac:(lia)) as Hd.
  pose proof (Nat.mod_upper_bound n gs ltac:(lia)) as Hm.
  destruct (Nat.eqb_spec (n mod gs) 0) as [E|E].
  - symmetry. rewrite Nat.add_0_r.
    apply (Nat.div_unique _ _ _ (gs - 1)); lia.
  - symmetry. apply (Nat.div_unique _ _ _ (n mod gs - 1)); lia.
Qed.

(** The sizes of the chunks of a list of length [n]: [n / gs] full chunks
    and a last one of [n mod gs] members when that is not zero. *)
Lemma serp_chunk_lengths (l : list A) :
  map length (map (serp_chunk gs l) (seq 0 (div_up (length l) gs)))
  = repeat gs (length l / gs)
    ++ (if Nat.eqb (length l mod gs) 0 then [] else [length l mod gs]).
Proof.
  set (n := length l).
  pose proof (Nat.div_mod n gs ltac:(lia)) as Hd.
  pose proof (Nat.mod_upper_bound n gs ltac:(lia)) as Hm.
  rewrite map_map, div_up_divmod, seq_app, map_app.
  f_equal.
  - rewrite <- (length_seq (n / gs) 0) at 2. rewrite <- map_const.
    apply map_ext_in. intros k Hk. apply in_seq in Hk.
    rewrite length_serp_chunk, length_chunk. fold n.
    assert ((k + 1) * gs <= n / gs * gs) by (apply Nat.mul_le_mono_r; lia).
    lia.
  - destruct (Nat.eqb_spec (n mod gs) 0); [reflexivity|]. simpl.
    rewrite length_serp_chunk, length_chunk. fold n. f_equal. lia.
Qed.

End Chunks.

(** C10: the serpentine step leaves group membership unchanged: for every
    list and every [group_size > 0], the groups sliced from the serpentine
    output are, one by one, permutations of the groups that plain
    consecutive slicing of the same list gives. *)
Theorem serpentine_preserves_membership {A} (gs : nat) (l : list A) :
  0 < gs ->
  exists bucketed groups plain,
    serpentine (Z.of_nat gs) l = Ok bucketed /\
    slice_groups (Z.of_nat gs) bucketed = Ok groups /\
    slice_groups (Z.of_nat gs) l = Ok plain /\
    Forall2 (fun g c => g ≡ₚ c) groups plain.
Proof.
  intros Hgs.
  set (b := concat (map (serp_chunk gs l) (seq 0 (div_up (length l) gs)))).
  exists b, (map (chunk gs b) (seq 0 (div_up (length b) gs))),
    (map (chunk gs l) (seq 0 (div_up (length l) gs))).
  split; [by apply serpentine_eq|]. split; [by apply slice_groups_eq|].
  split; [by apply slice_groups_eq|].
  unfold b. rewrite serpentine_regroup by done.
  apply Forall2_fmap, Forall_Forall2_diag, Forall_forall.
  intros k _. apply serp_chunk_perm.
Qed.

(** Witness of C10 on five elements and groups of two. *)
Lemma serpentine_preserves_membership_witness :
  0 < 2 /\
  exists bucketed groups plain,
    serpentine (Z.of_nat 2) ["a"; "b"; "c"; "d"; "e"] = Ok bucketed /\
    slice_groups (Z.of_nat 2) bucketed = Ok groups /\
    slice_groups (Z.of_nat 2) ["a"; "b"; "c"; "d"; "e"] = Ok plain /\
    Forall2 (fun g c => g ≡ₚ c) groups plain.
Proof.
  split; [lia|]. apply serpentine_preserves_membership. lia.
Defined.

(* ================================================================== *)
(** * The stable descending sort *)

Lemma filter_none {B} (P : B -> Prop) `{forall x, Decision (P x)} (l : list B) :
  (forall z, z ∈ l -> ~ P z) -> filter P l = [].
Proof.
  induction l as [|y t IH]; intros Hn; [reflexivity|].
  rewrite filter_cons. destruct (decide (P y)) as [Hy|Hy].
  - exfalso. apply (Hn y); [apply elem_of_cons; by left|done].
  - apply IH. intros z Hz. apply Hn. apply elem_of_cons. by right.
Qed.

Lemma filter_all {B} (P : B -> Prop) `{forall x, Decision (P x)} (l : list B) :
  (forall z, z ∈ l -> P z) -> filter P l = l.
Proof.
  induction l as [|y t IH]; intros Ha; [reflexivity|].
  rewrite filter_cons. destruct (decide (P y)) as [Hy|Hy].
  - f_equal. apply IH. intros z Hz. apply Ha. apply elem_of_cons. by right.
  - exfalso. apply Hy, Ha. apply elem_of_cons. by left.
Qed.

Section Sort.

Context {A : Type} (key : A -> Q).

(** Descending order on keys. *)
Let desc (x y : A) : Prop := (key y <= key x)%Q.

Lemma insert_desc_perm (x : A) l : insert_desc key x l ≡ₚ x :: l.
Proof.
  induction l as [|y t IH]; simpl; [reflexivity|].
  destruct (negb (Qle_bool (key x) (key y))); [reflexivity|].
  rewrite IH. apply perm_swap.
Qed.

Lemma sort_desc_perm_acc acc (l : list A) :
  foldl (fun acc x => insert_desc key x acc) acc l ≡ₚ l ++ acc.
Proof.
  revert acc. induction l as [|x l IH]; intros acc; simpl; [reflexivity|].
  rewrite IH, insert_desc_perm. symmetry. apply Permutation_middle.
Qed.

Lemma sort_desc_perm (l : list A) : sort_desc key l ≡ₚ l.
Proof. unfold sort_desc. rewrite sort_desc_perm_acc, app_nil_r. reflexivity. Qed.

Lemma insert_desc_hd (x y : A) t :
  desc y x -> HdRel desc y t -> HdRel desc y (insert_desc key x t).
Proof.
  intros Hyx Ht. destruct t as [|z t]; simpl.
  - by constructor.
  - inversion Ht; subst.
    destruct (negb (Qle_bool (key x) (key z))); by constructor.
Qed.

Lemma insert_desc_sorted (x : A) l :
  Sorted desc l -> Sorted desc (insert_desc key x l).
Proof.
  induction l as [|y t IH]; intros Hs; simpl.
  - by repeat constructor.
  - destruct (Qle_bool (key x) (key y)) eqn:E; simpl.
    + apply Qle_bool_iff in E. inversion Hs; subst.
      constructor; [by apply IH|]. by apply insert_desc_hd.
    + constructor; [done|]. constructor. unfold desc.
      apply Qlt_le_weak, Qnot_le_lt. intros Hle.
      apply Qle_bool_iff in Hle. congruence.
Qed.

Lemma sort_desc_sorted_acc acc (l : list A) :
  Sorted desc acc -> Sorted desc (foldl (fun acc x => insert_desc key x acc) acc l).
Proof.
  revert acc. induction l as [|x l IH]; intros acc Hs; simpl; [done|].
  apply IH, insert_desc_sorted, Hs.
Qed.

Lemma sorted_desc_head_max (y : A) t :
  Sorted desc (y :: t) -> forall z, z ∈ t -> (key z <= key y)%Q.
Proof.
  intros Hs. apply Sorted_StronglySorted in Hs.
  - inversion Hs as [|? ? _ Hall]; subst. intros z Hz.
    rewrite Forall_forall in Hall. by apply Hall.
  - intros a b c Hab Hbc. unfold desc in *. eapply Qle_trans; eauto.
Qed.

(** Inserting [x] after every element whose key is not smaller keeps the
    elements with [x]'s key in arrival order. *)
Lemma insert_desc_filter (q : Q) (x : A) l :
  Sorted desc l ->
  filter (fun z => key z == q)%Q (insert_desc key x l)
  = filter (fun z => key z == q)%Q l ++ filter (fun z => key z == q)%Q [x].
Proof.
  induction l as [|y t IH]; intros Hs; simpl; [reflexivity|].
  destruct (Qle_bool (key x) (key y)) eqn:E; simpl.
  - rewrite !filter_cons. rewrite IH by (by inversion Hs).
    destruct (decide (key y == q)%Q); reflexivity.
  - assert (Hlt : (key y < key x)%Q).
    { apply Qnot_le_lt. intros Hle. apply Qle_bool_iff in Hle. congruence. }
    rewrite !filter_cons.
    destruct (decide (key x == q)%Q) as [Hx|Hx].
    + assert (filter (fun z => key z == q)%Q (y :: t) = []) as Hnil.
      { apply filter_none. intros z Hz.
        apply elem_of_cons in Hz as [->|Hz].
        - intros Hq. rewrite Hq in Hlt. rewrite Hx in Hlt. by apply Qlt_irrefl in Hlt.
        - intros Hq. pose proof (sorted_desc_head_max y t Hs z Hz) as Hzy.
          rewrite Hq, <- Hx in Hzy. apply (Qlt_irrefl (key x)).
          eapply Qle_lt_trans; eauto. }
      rewrite filter_cons in Hnil.
      destruct (decide (key y == q)%Q); [discriminate|]. rewrite Hnil. reflexivity.
    + rewrite app_nil_r. reflexivity.
Qed.

Lemma sort_desc_filter_acc (q : Q) acc (l : list A) :
  Sorted desc acc ->
  filter (fun z => key z == q)%Q (foldl (fun acc x => insert_desc key x acc) acc l)
  = filter (fun z => key z == q)%Q acc ++ filter (fun z => key z == q)%Q l.
Proof.
  revert acc. induction l as [|x l IH]; intros acc Hs; simpl.
  - by rewrite app_nil_r.
  - rewrite IH by (by apply insert_desc_sorted).
    rewrite insert_desc_filter by done. rewrite <- app_assoc. f_equal.
    rewrite !filter_cons. destruct (decide _); reflexivity.
Qed.

End Sort.

(* ================================================================== *)
(** * The pipeline of [create_groups_ext] *)

Lemma mapM_res_ok {B C} (f : B -> res C) (l : list B) :
  (forall x, exists y, f x = Ok y) ->
  exists ys, mapM f l = Ok ys /\ length ys = length l.
Proof.
  intros Hf. induction l as [|x l IH].
  - by exists [].
  - destruct (Hf x) as [y Hy]. destruct IH as [ys [Hys Hlen]].
    exists (y :: ys). simpl. rewrite Hy. cbn [mbind res_mbind res_bind].
    fold (mapM f l). rewrite Hys. simpl. split; [reflexivity|]. by f_equal.
Qed.

Lemma avg_of_ok json_loads (w : gmap string Q) students p :
  exists a, avg_of json_loads w students p = Ok a.
Proof.
  unfold avg_of.
  destruct (mapM_res_ok (fun q => compute_similarity_ext json_loads p q w)
              (filter (fun q => pid q <> pid p) students)) as [scores [Hs _]].
  { intros q. apply compute_similarity_ext_ok. }
  cbn [mbind res_mbind]. rewrite Hs. simpl.
  destruct scores as [|s0 scores]; [by eexists|].
  unfold py_div. destruct (Qeq_bool _ 0%Q) eqn:Z.
  - apply Q_of_nat_eq0 in Z. discriminate.
  - by eexists.
Qed.

Lemma fill_avg_ok json_loads (w : gmap string Q) students todo acc :
  exists m, fill_avg json_loads w students todo acc = Ok m.
Proof.
  revert acc. induction todo as [|p t IH]; intros acc; simpl; [by eexists|].
  destruct (avg_of_ok json_loads w students p) as [a Ha].
  cbn [mbind res_mbind]. rewrite Ha. simpl. apply IH.
Qed.

Lemma dict_set_new {V} k (v : V) (d : list (string * V)) :
  k ∉ map fst d -> dict_set k v d = d ++ [(k, v)].
Proof.
  induction d as [|[k' v'] t IH]; intros Hk; simpl; [reflexivity|].
  simpl in Hk. apply not_elem_of_cons in Hk as [Hne Hk].
  destruct (String.eqb_spec k k') as [->|_]; [contradiction|].
  by rewrite IH.
Qed.

Lemma profiles_dict_acc acc (ps : list profile) :
  NoDup (map pid ps) ->
  (forall p, p ∈ ps -> pid p ∉ map fst acc) ->
  foldl (fun d p => dict_set (pid p) p d) acc ps = acc ++ map (fun p => (pid p, p)) ps.
Proof.
  revert acc. induction ps as [|p ps IH]; intros acc Hnd Hfresh; simpl.
  - by rewrite app_nil_r.
  - inversion Hnd as [|? ? Hp Hnd']; subst.
    rewrite dict_set_new by (apply Hfresh; apply elem_of_cons; by left).
    rewrite IH; [by rewrite <- app_assoc|done|].
    intros p' Hp'. rewrite map_app. simpl. intros Hin.
    apply elem_of_app in Hin as [Hin|Hin].
    + apply (Hfresh p'); [apply elem_of_cons; by right|done].
    + apply list_elem_of_singleton in Hin. apply Hp.
      rewrite <- Hin. apply list_elem_of_In, in_map, list_elem_of_In, Hp'.
Qed.

(** With distinct ids, the dict of the query result keeps every row, in
    order. *)
Lemma profiles_dict_nodup (ps : list profile) :
  NoDup (map pid ps) -> profiles_dict ps = map (fun p => (pid p, p)) ps.
Proof.
  intros Hnd. unfold profiles_dict. rewrite profiles_dict_acc; [done|done|].
  intros p _ Hin. inversion Hin.
Qed.

Lemma NoDup_map_filter {B C} (f : B -> C) (P : B -> Prop)
    `{forall x, Decision (P x)} (l : list B) :
  NoDup (map f l) -> NoDup (map f (filter P l)).
Proof.
  induction l as [|x l IH]; intros Hnd; [constructor|].
  simpl in Hnd. inversion Hnd as [|? ? Hx Hnd']; subst.
  rewrite filter_cons. destruct (decide (P x)); [|by apply IH].
  simpl. constructor; [|by apply IH].
  intros Hin. apply Hx. apply list_elem_of_In in Hin.
  apply in_map_iff in Hin as [y [Hy Hiny]].
  apply list_elem_of_In, in_map_iff. exists y. split; [done|].
  apply list_elem_of_In. apply list_elem_of_In in Hiny.
  apply list_elem_of_filter in Hiny. apply Hiny.
Qed.

Lemma dict_set_not_nil {V} k (v : V) d : dict_set k v d <> [].
Proof. destruct d as [|[k' v'] t]; simpl; [done|]. by destruct (String.eqb k k'). Qed.

Lemma dict_fold_not_nil (ps : list profile) acc :
  acc <> [] -> foldl (fun d p => dict_set (pid p) p d) acc ps <> [].
Proof.
  revert acc. induction ps as [|p ps IH]; intros acc Hacc; simpl; [done|].
  apply IH, dict_set_not_nil.
Qed.

Lemma profiles_dict_nil (ps : list profile) : profiles_dict ps = [] -> ps = [].
Proof.
  unfold profiles_dict. destruct ps as [|p ps]; [done|]. simpl. intros H.
  exfalso. exact (dict_fold_not_nil ps [(pid p, p)] ltac:(discriminate) H).
Qed.

Lemma session_groups_replace sid (w : gmap string Q) groups d :
  session_groups sid (replace_groups sid w groups d) = map (map pid) groups.
Proof.
  unfold session_groups, replace_groups. simpl.
  rewrite filter_app, filter_none.
  - simpl. rewrite filter_all.
    + rewrite map_map. reflexivity.
    + intros r Hr. apply list_elem_of_In, in_map_iff in Hr as [g [<- _]]. reflexivity.
  - intros r Hr. apply list_elem_of_filter in Hr. apply Hr.
Qed.

(** The early returns of [create_groups_ext]: without participants, or
    without completed profiles, it warns and leaves the state as it is. *)
Lemma create_groups_ext_no_profiles json_loads sid gs (w : gmap string Q) d :
  session_profiles sid d = [] ->
  exists s, create_groups_ext json_loads sid gs w d = Ok (d, [Warning s]).
Proof.
  intros Hps. unfold create_groups_ext.
  unfold session_profiles in Hps.
  destruct (session_nick_ids sid d) as [|n ns]; [by eexists|].
  rewrite Hps. by eexists.
Qed.

(** The main path of [create_groups_ext]: the students are sorted by some
    key, then go through the serpentine loop and the slicing. *)
Lemma create_groups_ext_main json_loads sid gs (w : gmap string Q) d :
  session_profiles sid d <> [] ->
  exists key : profile -> Q,
    create_groups_ext json_loads sid gs w d
    = (bucketed ← serpentine gs
                    (sort_desc key (map snd (profiles_dict (session_profiles sid d))));
       groups ← slice_groups gs bucketed;
       mret (replace_groups sid w groups d, [Success (length groups)])).
Proof.
  intros Hps. unfold create_groups_ext. unfold session_profiles in *.
  destruct (session_nick_ids sid d) as [|n ns].
  { exfalso. apply Hps. unfold query_profiles. apply filter_none.
    intros z _ Hz. by apply not_elem_of_nil in Hz. }
  destruct (profiles_dict (query_profiles (n :: ns) d)) as [|e es] eqn:Ed.
  { by apply profiles_dict_nil in Ed. }
  set (students := map snd (e :: es)).
  destruct (fill_avg_ok json_loads w students students ∅) as [avg Havg].
  exists (fun x => default 0%Q (avg !! pid x)).
  cbn [mbind res_mbind]. rewrite Havg. reflexivity.
Qed.

(** With distinct ids and [group_size > 0], the stored groups of the
    session are the serpentine chunks of the sorted session profiles. *)
Lemma create_groups_ext_chunks json_loads sid (gs : nat) (w : gmap string Q) d :
  0 < gs -> NoDup (map pid (profiles_tbl d)) -> session_profiles sid d <> [] ->
  exists (key : profile -> Q) d' ms,
    create_groups_ext json_loads sid (Z.of_nat gs) w d = Ok (d', ms) /\
    session_groups sid d'
    = map (map pid) (map (serp_chunk gs (sort_desc key (session_profiles sid d)))
                         (seq 0 (div_up (length (session_profiles sid d)) gs))).
Proof.
  intros Hgs Hnd Hps.
  destruct (create_groups_ext_main json_loads sid (Z.of_nat gs) w d Hps) as [key ->].
  rewrite profiles_dict_nodup
    by (unfold session_profiles, query_profiles; by apply NoDup_map_filter).
  rewrite map_map. simpl. rewrite map_id.
  set (S := sort_desc key (session_profiles sid d)).
  assert (length S = length (session_profiles sid d)) as HS
    by apply Permutation_length, sort_desc_perm.
  rewrite serpentine_eq by done. cbn [mbind res_mbind res_bind].
  rewrite slice_groups_eq by done. cbn [mbind res_mbind res_bind mret res_ret].
  rewrite serpentine_regroup by done.
  eexists key, _, _. split; [reflexivity|].
  rewrite session_groups_replace, HS. reflexivity.
Qed.

Lemma create_groups_ext_sizes json_loads sid (gs : nat) (w : gmap string Q) d :
  0 < gs -> NoDup (map pid (profiles_tbl d)) -> session_profiles sid d <> [] ->
  let n := length (session_profiles sid d) in
  exists d' ms,
    create_groups_ext json_loads sid (Z.of_nat gs) w d = Ok (d', ms) /\
    map length (session_groups sid d')
    = repeat gs (n / gs) ++ (if Nat.eqb (n mod gs) 0 then [] else [n mod gs]).
Proof.
  intros Hgs Hnd Hps n.
  destruct (create_groups_ext_chunks json_loads sid gs w d Hgs Hnd Hps)
    as (key & d' & ms & Hrun & Hgr).
  exists d', ms. split; [done|]. rewrite Hgr, map_map.
  rewrite (map_ext (fun x => length (map pid x)) length) by (intros; apply length_map).
  set (S := sort_desc key (session_profiles sid d)).
  assert (length S = n) as HS by apply Permutation_length, sort_desc_perm.
  unfold n in *. rewrite <- HS. by apply serp_chunk_lengths.
Qed.

Lemma Forall_length_one (G : list (list string)) k :
  map length G = repeat 1 k -> Forall (fun g => length g = 1) G.
Proof.
  revert k. induction G as [|g G IH]; intros k H; [constructor|].
  destruct k as [|k]; simpl in H; [discriminate|].
  injection H as H1 H2. constructor; [done|]. by apply (IH k).
Qed.

Lemma create_groups_ext_runs json_loads sid (gs : Z) (w : gmap string Q) d :
  (1 <= gs)%Z -> exists r, create_groups_ext json_loads sid gs w d = Ok r.
Proof.
  intros Hgs.
  destruct (decide (session_profiles sid d = [])) as [Hps|Hps].
  - destruct (create_groups_ext_no_profiles json_loads sid gs w d Hps) as [s ->].
    by eexists.
  - destruct (create_groups_ext_main json_loads sid gs w d Hps) as [key ->].
    replace gs with (Z.of_nat (Z.to_nat gs)) by lia.
    rewrite serpentine_eq by lia. cbn [mbind res_mbind res_bind].
    rewrite slice_groups_eq by lia. by eexists.
Qed.

(* ================================================================== *)
(** * Claims about [create_groups_ext] *)

(** C5: for distinct profile ids, a non-empty session and every
    [group_size >= 2], the stored groups of the session cover every
    profile of the session exactly once: their concatenation is a
    permutation of the session's profile ids, without duplicates. *)
Theorem create_groups_ext_covers json_loads sid (gs : nat) (w : gmap string Q) d :
  2 <= gs -> NoDup (map pid (profiles_tbl d)) -> session_profiles sid d <> [] ->
  exists d' ms,
    create_groups_ext json_loads sid (Z.of_nat gs) w d = Ok (d', ms) /\
    concat (session_groups sid d') ≡ₚ map pid (session_profiles sid d) /\
    NoDup (concat (session_groups sid d')).
Proof.
  intros Hgs Hnd Hps.
  destruct (create_groups_ext_chunks json_loads sid gs w d ltac:(lia) Hnd Hps)
    as (key & d' & ms & Hrun & Hgr).
  assert (Hperm : concat (session_groups sid d') ≡ₚ map pid (session_profiles sid d)).
  { rewrite Hgr, <- concat_map. apply Permutation_map.
    set (S := sort_desc key (session_profiles sid d)).
    assert (length S = length (session_profiles sid d)) as HS
      by apply Permutation_length, sort_desc_perm.
    rewrite <- HS. rewrite serpentine_concat_perm by lia. apply sort_desc_perm. }
  exists d', ms. split; [done|]. split; [done|].
  rewrite Hperm. unfold session_profiles, query_profiles. by apply NoDup_map_filter.
Qed.

Lemma create_groups_ext_covers_witness :
  2 <= 2 /\ NoDup (map pid (profiles_tbl db_five)) /\
  session_profiles "S" db_five <> [] /\
  exists d' ms,
    create_groups_ext json_loads_subset "S" (Z.of_nat 2) w_hobby_only db_five
      = Ok (d', ms) /\
    concat (session_groups "S" d') ≡ₚ map pid (session_profiles "S" db_five) /\
    NoDup (concat (session_groups "S" d')).
Proof.
  assert (H1 : NoDup (map pid (profiles_tbl db_five)))
    by (apply (bool_decide_unpack _); vm_compute; reflexivity).
  assert (H2 : session_profiles "S" db_five <> [])
    by (intros H; vm_compute in H; discriminate).
  split; [lia|]. split; [exact H1|]. split; [exact H2|].
  apply create_groups_ext_covers; [lia | exact H1 | exact H2].
Defined.

(** C1 (counterexample): five profiles of session "S", [group_size = 4]:
    the stored groups are [[a; b; c; d]] and the singleton [[e]]. *)
Lemma create_groups_ext_singleton_remainder :
  run_session_groups json_loads_subset "S" 4 w_hobby_only db_five
  = Some [["a"; "b"; "c"; "d"]; ["e"]].
Proof. vm_compute. reflexivity. Qed.

(** C1 (amended): the groups are consecutive chunks of the sorted
    session: for [n] profiles (distinct ids, [n > 0]) and [group_size > 0]
    there are [n / group_size] groups of exactly [group_size] members,
    followed, when [n mod group_size <> 0], by one last group of
    [n mod group_size] members; that last group is a singleton whenever
    [n mod group_size = 1]. *)
Theorem create_groups_ext_group_sizes json_loads sid (gs : nat) (w : gmap string Q) d :
  0 < gs -> NoDup (map pid (profiles_tbl d)) -> session_profiles sid d <> [] ->
  let n := length (session_profiles sid d) in
  exists d' ms,
    create_groups_ext json_loads sid (Z.of_nat gs) w d = Ok (d', ms) /\
    map length (session_groups sid d')
    = repeat gs (n / gs) ++ (if Nat.eqb (n mod gs) 0 then [] else [n mod gs]).
Proof. apply create_groups_ext_sizes. Qed.

Lemma create_groups_ext_group_sizes_witness :
  0 < 4 /\ NoDup (map pid (profiles_tbl db_five)) /\
  session_profiles "S" db_five <> [] /\
  exists d' ms,
    create_groups_ext json_loads_subset "S" (Z.of_nat 4) w_hobby_only db_five
      = Ok (d', ms) /\
    map length (session_groups "S" d') = repeat 4 (5 / 4) ++ [5 mod 4].
Proof.
  assert (H1 : NoDup (map pid (profiles_tbl db_five)))
    by (apply (bool_decide_unpack _); vm_compute; reflexivity).
  assert (H2 : session_profiles "S" db_five <> [])
    by (intros H; vm_compute in H; discriminate).
  split; [lia|]. split; [exact H1|]. split; [exact H2|].
  exact (create_groups_ext_group_sizes json_loads_subset "S" 4 w_hobby_only db_five
           ltac:(lia) H1 H2).
Defined.

(** C3 (counterexample): [group_size = 1] raises nothing; every profile
    of the session becomes a singleton group. *)
Lemma create_groups_ext_size_one_accepted :
  run_session_groups json_loads_subset "S" 1 w_hobby_only db_five
  = Some [["a"]; ["b"]; ["c"]; ["d"]; ["e"]].
Proof. vm_compute. reflexivity. Qed.

(** C3 (amended): [create_groups_ext] validates neither [group_size] nor
    the weights.  For every [group_size >= 1] and every weight map
    (negative weights included) it runs without raising; with
    [group_size = 1] (distinct ids, non-empty session) every stored group
    is a singleton; [group_size = 0] raises Python's [ValueError] from
    [range] (a non-empty session); a negative [group_size] stores no group
    for the session and raises nothing. *)
Theorem create_groups_ext_no_validation json_loads sid (w : gmap string Q) d :
  (forall gs : Z, (1 <= gs)%Z ->
     exists r, create_groups_ext json_loads sid gs w d = Ok r) /\
  (NoDup (map pid (profiles_tbl d)) -> session_profiles sid d <> [] ->
     exists d' ms, create_groups_ext json_loads sid 1 w d = Ok (d', ms) /\
       Forall (fun g => length g = 1) (session_groups sid d')) /\
  (session_profiles sid d <> [] ->
     create_groups_ext json_loads sid 0 w d = Raise ValueError) /\
  (forall gs : Z, (gs < 0)%Z -> session_profiles sid d <> [] ->
     exists d' ms, create_groups_ext json_loads sid gs w d = Ok (d', ms) /\
       session_groups sid d' = []).
Proof.
  split; [|split; [|split]].
  - intros gs Hgs. by apply create_groups_ext_runs.
  - intros Hnd Hps.
    destruct (create_groups_ext_sizes json_loads sid 1 w d ltac:(lia) Hnd Hps)
      as (d' & ms & Hrun & Hlen).
    exists d', ms. split; [exact Hrun|].
    rewrite Nat.mod_1_r in Hlen. simpl in Hlen. rewrite app_nil_r in Hlen.
    by apply (Forall_length_one _ _ Hlen).
  - intros Hps.
    destruct (create_groups_ext_main json_loads sid 0 w d Hps) as [key ->].
    reflexivity.
  - intros gs Hgs Hps.
    destruct (create_groups_ext_main json_loads sid gs w d Hps) as [key ->].
    unfold serpentine, slice_groups, py_range.
    destruct (Z.eqb_spec gs 0) as [|_]; [lia|].
    destruct (Z.ltb_spec gs 0) as [_|]; [|lia].
    cbn [mbind res_mbind res_bind mret res_ret concat map length].
    eexists _, _. split; [reflexivity|]. apply (session_groups_replace sid w [] d).
Qed.

Lemma create_groups_ext_no_validation_witness :
  (exists r, create_groups_ext json_loads_subset "S" 3 {[ "hobby" := (-1)%Q ]} db_five
               = Ok r) /\
  (exists d' ms,
     create_groups_ext json_loads_subset "S" 1 {[ "hobby" := (-1)%Q ]} db_five
       = Ok (d', ms) /\
     Forall (fun g => length g = 1) (session_groups "S" d')) /\
  create_groups_ext json_loads_subset "S" 0 {[ "hobby" := (-1)%Q ]} db_five
    = Raise ValueError /\
  (exists d' ms,
     create_groups_ext json_loads_subset "S" (-2) {[ "hobby" := (-1)%Q ]} db_five
       = Ok (d', ms) /\ session_groups "S" d' = []).
Proof.
  assert (H1 : NoDup (map pid (profiles_tbl db_five)))
    by (apply (bool_decide_unpack _); vm_compute; reflexivity).
  assert (H2 : session_profiles "S" db_five <> [])
    by (intros H; vm_compute in H; discriminate).
  destruct (create_groups_ext_no_validation json_loads_subset "S"
              {[ "hobby" := (-1)%Q ]} db_five) as (Ha & Hb & Hc & Hd).
  split; [apply Ha; lia|]. split; [exact (Hb H1 H2)|].
  split; [exact (Hc H2)|]. apply Hd; [lia|exact H2].
Defined.

(** C7 (counterexample): session "S" has participants but no completed
    profile, and a group from an earlier run; after [create_groups_ext]
    that group is still stored: the session's groups are not emptied. *)
Lemma create_groups_ext_no_profiles_keeps_groups :
  run_session_groups json_loads_subset "S" 4 w_hobby_only db_no_profiles
  = Some [["x"; "y"]].
Proof. vm_compute. reflexivity. Qed.

(** C7 (amended): when the session has no profiles (no nickname, or no
    nickname with a profile), [create_groups_ext] raises nothing, for any
    [group_size] and weights: it shows a warning and returns early,
    leaving the database (and so the session's stored groups) as it
    was. *)
Theorem create_groups_ext_empty_session json_loads sid (gs : Z) (w : gmap string Q) d :
  session_profiles sid d = [] ->
  exists s, create_groups_ext json_loads sid gs w d = Ok (d, [Warning s]).
Proof. apply create_groups_ext_no_profiles. Qed.

Lemma create_groups_ext_empty_session_witness :
  session_profiles "S" db_no_profiles = [] /\
  exists s, create_groups_ext json_loads_subset "S" 4 w_hobby_only db_no_profiles
              = Ok (db_no_profiles, [Warning s]).
Proof.
  assert (H : session_profiles "S" db_no_profiles = []) by (vm_compute; reflexivity).
  split; [exact H|]. by apply create_groups_ext_empty_session.
Defined.

(** C9: the sort step of [create_groups_ext] ([students.sort(key=...,
    reverse=True)]) is a stable descending sort: for every key, its
    result is a permutation of the input, ordered by non-increasing key,
    and the elements of any one key value keep their input order.  Every
    other step of [create_groups_ext] is a function of the profile list,
    [group_size] and weights, so identical inputs give identical groups. *)
Theorem sort_desc_stable {A} (key : A -> Q) (l : list A) :
  sort_desc key l ≡ₚ l /\
  Sorted (fun x y => (key y <= key x)%Q) (sort_desc key l) /\
  (forall q, filter (fun z => key z == q)%Q (sort_desc key l)
             = filter (fun z => key z == q)%Q l).
Proof.
  split; [apply sort_desc_perm|]. split.
  - apply sort_desc_sorted_acc. constructor.
  - intros q. unfold sort_desc. rewrite sort_desc_filter_acc; [reflexivity|].
    constructor.
Qed.

(* ================================================================== *)
(** * What a run of [create_groups_ext] writes *)

(** The two outcomes of a run that does not raise. *)
Lemma create_groups_ext_cases json_loads sid gs (w : gmap string Q) d d' ms :
  create_groups_ext json_loads sid gs w d = Ok (d', ms) ->
  (session_profiles sid d = [] /\ d' = d /\ exists s, ms = [Warning s]) \/
  (session_profiles sid d <> [] /\
   exists groups, d' = replace_groups sid w groups d /\ ms = [Success (length groups)]).
Proof.
  intros Hrun.
  destruct (decide (session_profiles sid d = [])) as [Hps|Hps].
  - left. destruct (create_groups_ext_no_profiles json_loads sid gs w d Hps) as [s Hs].
    rewrite Hs in Hrun. injection Hrun as <- <-. eauto.
  - right. split; [done|].
    destruct (create_groups_ext_main json_loads sid gs w d Hps) as [key Hk].
    rewrite Hk in Hrun. unfold mbind, res_mbind in Hrun.
    destruct (serpentine gs _) as [b|e]; cbn [res_bind] in Hrun; [|discriminate].
    destruct (slice_groups gs b) as [groups|e]; cbn [res_bind] in Hrun; [|discriminate].
    unfold mret, res_ret in Hrun. injection Hrun as <- <-. eauto.
Qed.


Lemma replace_groups_other sid sid' (w : gmap string Q) groups d :
  sid' <> sid ->
  filter (fun r => sessione_id r = sid') (gruppi (replace_groups sid w groups d))
  = filter (fun r => sessione_id r = sid') (gruppi d).
Proof.
  intros Hne. unfold replace_groups. simpl. rewrite filter_app.
  rewrite (filter_none _ (map _ groups)).
  - rewrite app_nil_r. apply list_filter_filter_l. intros r Hr. by rewrite Hr.
  - intros r Hr Heq. apply list_elem_of_In, in_map_iff in Hr as [g [<- _]].
    simpl in Heq. by apply Hne.
Qed.






Lemma existsb_JStr x (g : list string) :
  existsb (fun v => match v with JStr s => String.eqb s x | _ => false end) (map JStr g)
  = bool_decide (x ∈ g).
Proof.
  induction g as [|y g IH]; simpl; [done|]. rewrite IH.
  destruct (String.eqb_spec y x) as [->|Hne]; simpl;
    case_bool_decide as H1; try case_bool_decide as H2; try done; exfalso; set_solver.
Qed.



(** A run of [create_groups_ext] that does not raise changes neither the
    [nicknames] nor the [profiles] table, nor any row of [gruppi] of
    another session. *)
Theorem create_groups_ext_frame json_loads sid gs (w : gmap string Q) d d' ms :
  create_groups_ext json_loads sid gs w d = Ok (d', ms) ->
  nicknames d' = nicknames d /\ profiles_tbl d' = profiles_tbl d /\
  (forall sid', sid' <> sid ->
     filter (fun r => sessione_id r = sid') (gruppi d')
     = filter (fun r => sessione_id r = sid') (gruppi d)).
Proof.
  intros Hrun.
  destruct (create_groups_ext_cases json_loads sid gs w d d' ms Hrun)
    as [(_ & -> & _)|(_ & groups & -> & _)]; [done|].
  split; [done|]. split; [done|]. intros sid' Hne. by apply replace_groups_other.
Qed.

Lemma create_groups_ext_frame_witness :
  create_groups_ext json_loads_subset "S" 2 w_hobby_only db_two
    = Ok (db_two_after, [Success 3]) /\
  nicknames db_two_after = nicknames db_two /\
  profiles_tbl db_two_after = profiles_tbl db_two /\
  (forall sid', sid' <> "S" ->
     filter (fun r => sessione_id r = sid') (gruppi db_two_after)
     = filter (fun r => sessione_id r = sid') (gruppi db_two)).
Proof.
  assert (H : create_groups_ext json_loads_subset "S" 2 w_hobby_only db_two
              = Ok (db_two_after, [Success 3])) by (vm_compute; reflexivity).
  split; [exact H|]. exact (create_groups_ext_frame json_loads_subset "S" 2 w_hobby_only
                             db_two db_two_after [Success 3] H).
Defined.





(* ================================================================== *)
(** * [get_user_group] *)





(** A row whose [membri] is missing or [None], a number, a boolean, a
    dict, an empty list, or a string that [json.loads] rejects is read as
    an empty member list: wherever it stands, it does not change what
    [get_user_group] finds. *)
Theorem find_user_group_skips_empty_row json_loads x rows1 raw rows2 :
  match raw with JStr s => json_loads s = None | JArr l => l = [] | _ => True end ->
  find_user_group json_loads x (rows1 ++ raw :: rows2)
  = find_user_group json_loads x (rows1 ++ rows2).
Proof.
  intros Hraw. induction rows1 as [|r rows1 IH]; simpl.
  - destruct raw as [| | | s |l|]; simpl; try done.
    + by rewrite Hraw.
    + by subst l.
  - by rewrite IH.
Qed.

Lemma find_user_group_skips_empty_row_witness :
  json_loads_subset "[1" = None /\
  find_user_group json_loads_subset "b" ([JArr [JStr "a"]] ++ JStr "[1" :: [JArr [JStr "b"]])
  = find_user_group json_loads_subset "b" ([JArr [JStr "a"]] ++ [JArr [JStr "b"]]).
Proof.
  assert (H : json_loads_subset "[1" = None) by (vm_compute; reflexivity).
  split; [exact H|].
  exact (find_user_group_skips_empty_row json_loads_subset "b" [JArr [JStr "a"]]
           (JStr "[1") [JArr [JStr "b"]] H).
Defined.

(** A row whose [membri] string decodes to [null], a boolean or a number
    makes [nickname_id in members] raise [TypeError]; the outer [except]
    swallows it and [get_user_group] returns [None], even when a later
    row lists the nickname. *)
Theorem find_user_group_type_error json_loads x rows1 s v rows2 :
  (v = JNull \/ (exists b, v = JBool b) \/ (exists z, v = JNum z)) ->
  json_loads s = Some v ->
  Forall (fun raw => exists g, decode_membri json_loads raw = JArr (map JStr g) /\ x ∉ g)
    rows1 ->
  find_user_group json_loads x (rows1 ++ JStr s :: rows2) = None.
Proof.
  intros Hv Hs Hrows. induction Hrows as [|raw rows1 [g [Hg Hx]] _ IH]; simpl.
  - rewrite Hs. by destruct Hv as [->|[[b ->]|[z ->]]].
  - rewrite Hg. simpl. rewrite existsb_JStr, bool_decide_false by done. exact IH.
Qed.

Lemma find_user_group_type_error_witness :
  json_loads_subset "42" = Some (JNum 42) /\
  Forall (fun raw => exists g, decode_membri json_loads_subset raw = JArr (map JStr g) /\
                               "b" ∉ g) [JArr [JStr "a"]] /\
  find_user_group json_loads_subset "b" ([JArr [JStr "a"]] ++ JStr "42" :: [JArr [JStr "b"]])
  = None.
Proof.
  assert (H1 : json_loads_subset "42" = Some (JNum 42)) by (vm_compute; reflexivity).
  assert (H2 : Forall (fun raw => exists g, decode_membri json_loads_subset raw
                                            = JArr (map JStr g) /\ "b" ∉ g)
                 [JArr [JStr "a"]]).
  { constructor; [|constructor]. exists ["a"]. split; [reflexivity|].
    apply (bool_decide_unpack _); vm_compute; reflexivity. }
  split; [exact H1|]. split; [exact H2|].
  exact (find_user_group_type_error json_loads_subset "b" [JArr [JStr "a"]] "42" (JNum 42)
           [JArr [JStr "b"]] (or_intror (or_intror (ex_intro _ 42%Z eq_refl))) H1 H2).
Defined.

(* ================================================================== *)
(** * [get_ready_ids] *)




(* ================================================================== *)
(** * [create_nickname] *)

Lemma foldl_max_bounds (x : Z) t :
  (x <= foldl Z.max x t)%Z /\ Forall (fun z => z <= foldl Z.max x t)%Z t /\
  foldl Z.max x t ∈ x :: t.
Proof.
  revert x. induction t as [|y t IH]; intros x; simpl.
  - split; [lia|]. split; [constructor|]. by left.
  - destruct (IH (Z.max x y)) as (H1 & H2 & H3). split; [lia|]. split.
    + constructor; [lia|exact H2].
    + apply elem_of_cons in H3 as [H3|H3]; [|by right; right].
      rewrite H3. destruct (Z.max_spec x y) as [[_ E]|[_ E]]; rewrite E;
        [by right; left|by left].
Qed.

(** The code that [create_nickname] tries first never exceeds 99999; it
    is non-negative whenever every [code4] value that [int] accepts is. *)
Theorem next_code_range py_int codes hms :
  (fst (next_code py_int codes hms) <= 99999)%Z /\
  (Forall (fun v => forall z, py_int v = Some z -> (0 <= z)%Z) (default [] codes) ->
   (0 <= fst (next_code py_int codes hms))%Z).
Proof.
  unfold next_code. destruct codes as [vals|]; simpl;
    [|pose proof (Z.mod_pos_bound hms 100000); lia].
  destruct (omap py_int vals) as [|x t] eqn:E; simpl; [lia|].
  pose proof (foldl_max_bounds x t) as (Hx & _ & _).
  destruct (Z.gtb_spec (foldl Z.max x t + 1) 99999); simpl;
    pose proof (Z.mod_pos_bound hms 100000); split; try lia.
  intros Hall. assert (0 <= x)%Z; [|lia].
  assert (Hin : x ∈ omap py_int vals) by (rewrite E; left).
  apply list_elem_of_omap in Hin as (v & Hv & Hpv).
  rewrite Forall_forall in Hall. exact (Hall v Hv x Hpv).
Qed.

Lemma next_code_range_witness :
  Forall (fun v => forall z, py_int_subset v = Some z -> (0 <= z)%Z)
    (default [] (Some [JNum 4; JNull; JStr "7"])) /\
  (fst (next_code py_int_subset (Some [JNum 4; JNull; JStr "7"]) 235959) <= 99999)%Z /\
  (0 <= fst (next_code py_int_subset (Some [JNum 4; JNull; JStr "7"]) 235959))%Z.
Proof.
  assert (H : Forall (fun v => forall z, py_int_subset v = Some z -> (0 <= z)%Z)
                (default [] (Some [JNum 4; JNull; JStr "7"]))).
  { repeat constructor; intros z Hz; vm_compute in Hz; try discriminate;
      injection Hz as <-; lia. }
  destruct (next_code_range py_int_subset (Some [JNum 4; JNull; JStr "7"]) 235959)
    as [H1 H2].
  split; [exact H|]. split; [exact H1|exact (H2 H)].
Defined.

(** When the select succeeds and every code that [int] accepts is below
    99999, the next code is [max(existing) + 1], above every existing
    code, without a warning; with no usable code it is 0. *)
Theorem next_code_max py_int vals hms :
  (omap py_int vals = [] -> next_code py_int (Some vals) hms = (0%Z, false)) /\
  (omap py_int vals <> [] -> Forall (fun z => z < 99999)%Z (omap py_int vals) ->
   exists m, m ∈ omap py_int vals /\ Forall (fun z => z <= m)%Z (omap py_int vals) /\
     next_code py_int (Some vals) hms = ((m + 1)%Z, false)).
Proof.
  unfold next_code. split; intros E; [by rewrite E|].
  destruct (omap py_int vals) as [|x t]; [done|]. intros Hlt.
  pose proof (foldl_max_bounds x t) as (Hx & Ht & Hin).
  exists (foldl Z.max x t). split; [exact Hin|]. split; [by constructor|].
  assert (foldl Z.max x t < 99999)%Z.
  { rewrite Forall_forall in Hlt. by apply Hlt. }
  destruct (Z.gtb_spec (foldl Z.max x t + 1) 99999); [lia|reflexivity].
Qed.

Lemma next_code_max_witness :
  omap py_int_subset [JNum 4; JNull; JStr "7"] <> [] /\
  Forall (fun z => z < 99999)%Z (omap py_int_subset [JNum 4; JNull; JStr "7"]) /\
  exists m, m ∈ omap py_int_subset [JNum 4; JNull; JStr "7"] /\
    Forall (fun z => z <= m)%Z (omap py_int_subset [JNum 4; JNull; JStr "7"]) /\
    next_code py_int_subset (Some [JNum 4; JNull; JStr "7"]) 0 = ((m + 1)%Z, false).
Proof.
  assert (H1 : omap py_int_subset [JNum 4; JNull; JStr "7"] <> [])
    by (vm_compute; discriminate).
  assert (H2 : Forall (fun z => z < 99999)%Z (omap py_int_subset [JNum 4; JNull; JStr "7"]))
    by (vm_compute; repeat constructor; lia).
  split; [exact H1|]. split; [exact H2|].
  exact (proj2 (next_code_max py_int_subset [JNum 4; JNull; JStr "7"] 0) H1 H2).
Defined.

(** The limit of 99999 never surfaces as an error: when the select
    raises, or a code of at least 99999 exists, the [ValueError] is
    caught, a warning is shown and the code comes from the clock:
    [HHMMSS % 100000]. *)
Theorem next_code_limit_fallback py_int codes hms :
  (codes = None \/
   exists vals z, codes = Some vals /\ z ∈ omap py_int vals /\ (99999 <= z)%Z) ->
  next_code py_int codes hms = ((hms mod 100000)%Z, true).
Proof.
  intros [->|(vals & z & -> & Hz & Hge)]; [reflexivity|]. unfold next_code.
  destruct (omap py_int vals) as [|x t]; [by apply not_elem_of_nil in Hz|].
  pose proof (foldl_max_bounds x t) as (Hx & Ht & _).
  assert (z <= foldl Z.max x t)%Z.
  { apply elem_of_cons in Hz as [->|Hz]; [done|]. rewrite Forall_forall in Ht. by apply Ht. }
  destruct (Z.gtb_spec (foldl Z.max x t + 1) 99999); [reflexivity|lia].
Qed.

Lemma next_code_limit_fallback_witness :
  (Some [JNum 99999; JNum 3] = None \/
   exists vals z, Some [JNum 99999; JNum 3] = Some vals /\ z ∈ omap py_int_subset vals /\
                  (99999 <= z)%Z) /\
  next_code py_int_subset (Some [JNum 99999; JNum 3]) 134501 = (34501%Z, true).
Proof.
  assert (H : Some [JNum 99999; JNum 3] = None \/
              exists vals z, Some [JNum 99999; JNum 3] = Some vals /\
                             z ∈ omap py_int_subset vals /\ (99999 <= z)%Z).
  { right. exists [JNum 99999; JNum 3], 99999%Z. split; [reflexivity|].
    split; [|lia]. vm_compute. left. }
  split; [exact H|].
  exact (next_code_limit_fallback py_int_subset (Some [JNum 99999; JNum 3]) 134501 H).
Defined.



(* ================================================================== *)
(** * [save_profile] and [normalize_field] *)

(** A set-valued field written by [save_profile] through [to_list] into a
    [text[]] column reads back in [normalize_field] as exactly the set of
    the strings written, with no JSON decoding; a list of strings is
    written as it is. *)
Theorem save_profile_field_roundtrip json_loads x :
  normalize_field json_loads (text_array (to_list x)) = list_to_set (to_list x) /\
  (forall l, to_list (JArr (map JStr l)) = l).
Proof.
  split.
  - unfold normalize_field, text_array. destruct (to_list x) as [|s l]; [reflexivity|].
    simpl. rewrite map_map. simpl. by rewrite map_id.
  - intros l. simpl. rewrite map_map. simpl. apply map_id.
Qed.

(* ================================================================== *)
(** * [build_join_url] *)

Lemma length_append_slash b : String.length (String.append b "/") = S (String.length b).
Proof. induction b as [|c b IH]; simpl; [done|]. by rewrite IH. Qed.

Lemma ends_with_slash_append b : ends_with_slash (String.append b "/") = true.
Proof.
  unfold ends_with_slash. rewrite length_append_slash. simpl. rewrite Nat.sub_0_r.
  induction b as [|c b IH]; [reflexivity|]. exact IH.
Qed.

(** The join link of a session is one base URL, the same for every
    session and ending in "/", followed by [?session_id=] and the session
    id; so two sessions with different ids get different links. *)
Theorem build_join_url_shape secrets :
  (exists base, ends_with_slash base = true /\
     forall sid, build_join_url secrets sid
                 = String.append base (String.append "?session_id=" sid)) /\
  (forall sid1 sid2, build_join_url secrets sid1 = build_join_url secrets sid2 -> sid1 = sid2).
Proof.
  unfold build_join_url.
  set (b := default (default "http://localhost:8501" (secrets !! "PUBLIC_BASE_URL"))
                    (secrets !! "PUBLIC_URL")).
  split.
  - exists (if ends_with_slash b then b else String.append b "/"). split; [|done].
    destruct (ends_with_slash b) eqn:E; [done|]. apply ends_with_slash_append.
  - intros sid1 sid2 H. apply (inj (String.append _)) in H.
    by apply (inj (String.append "?session_id=")) in H.
Qed.

(* ================================================================== *)
(** * Resetting and resuming *)

Lemma pop_all_lookup (c : gmap string string) ks k :
  pop_all c ks !! k = if bool_decide (k ∈ ks) then None else c !! k.
Proof.
  unfold pop_all. revert c. induction ks as [|k0 ks IH]; intros c; simpl; [done|].
  rewrite IH. case_bool_decide as H1; case_bool_decide as H2; try done.
  - exfalso. apply H2. by right.
  - apply elem_of_cons in H2 as [->|H2]; [|done]. by rewrite lookup_delete_eq.
  - rewrite lookup_delete_ne; [done|]. intros ->. apply H2. by left.
Qed.

Lemma lookup_filter_key (P : string -> bool) (m : gmap string json) k :
  filter (fun kv => P kv.1 = false) m !! k = if P k then None else m !! k.
Proof.
  rewrite map_lookup_filter. destruct (m !! k) as [v|]; simpl;
    destruct (P k) eqn:E; simpl; done.
Qed.

(** After [reset_teacher_session], the reset flag is set, no key of
    [st.session_state] starting with [teacher_] or [student_], nor
    [published_sessions], is left, every other key keeps its value, and
    the six session cookies are removed while the other cookies stay. *)
Theorem reset_teacher_session_clears ss cookies :
  let ks := ["teacher_session_id"; "teacher_group_size"; "student_session_id";
             "student_nickname_id"; "student_pin"; "student_session_expiry"] in
  let '(ss', cookies') := reset_teacher_session ss cookies in
  ss' !! "_teacher_reset_in_progress" = Some (JBool true) /\
  (forall k, teacher_reset_key k = true -> ss' !! k = None) /\
  (forall k, teacher_reset_key k = false -> k <> "_teacher_reset_in_progress" ->
     ss' !! k = ss !! k) /\
  (forall k, k ∈ ks -> cookies' !! k = None) /\
  (forall k, k ∉ ks -> cookies' !! k = cookies !! k).
Proof.
  cbv beta iota zeta delta [reset_teacher_session]. split; [|split; [|split; [|split]]].
  - rewrite lookup_filter_key. simpl. by rewrite lookup_insert_eq.
  - intros k Hk. by rewrite lookup_filter_key, Hk.
  - intros k Hk Hne. rewrite lookup_filter_key, Hk. by rewrite lookup_insert_ne.
  - intros k Hk. rewrite pop_all_lookup. by rewrite bool_decide_true.
  - intros k Hk. rewrite pop_all_lookup. by rewrite bool_decide_false.
Qed.

(** Resuming right after [reset_teacher_session] does not bring the
    teacher session back: the first [resume_teacher_from_cookie] only
    clears the reset flag, and a second one finds no
    [teacher_session_id] cookie. *)
Theorem reset_then_resume_teacher ss cookies :
  let '(ss1, c1) := reset_teacher_session ss cookies in
  let ss2 := resume_teacher_from_cookie ss1 c1 in
  ss2 !! "teacher_session_id" = None /\
  ss2 !! "_teacher_reset_in_progress" = None /\
  resume_teacher_from_cookie ss2 c1 !! "teacher_session_id" = None.
Proof.
  cbv beta iota zeta delta [reset_teacher_session].
  set (ss1 := filter _ _). set (c1 := pop_all _ _).
  assert (Hf : ss1 !! "_teacher_reset_in_progress" = Some (JBool true)).
  { unfold ss1. rewrite lookup_filter_key. simpl. by rewrite lookup_insert_eq. }
  assert (Ht : ss1 !! "teacher_session_id" = None)
    by (unfold ss1; by rewrite lookup_filter_key).
  assert (Hc : c1 !! "teacher_session_id" = None).
  { unfold c1. rewrite pop_all_lookup. by rewrite bool_decide_true by (by left). }
  assert (Hr : resume_teacher_from_cookie ss1 c1 = delete "_teacher_reset_in_progress" ss1).
  { unfold resume_teacher_from_cookie. by rewrite Hf. }
  rewrite Hr. split; [by rewrite lookup_delete_ne|]. split; [apply lookup_delete_eq|].
  unfold resume_teacher_from_cookie. rewrite lookup_delete_eq.
  change (default false (truthy <$> None)) with false. rewrite Hc. cbv iota.
  by rewrite lookup_delete_ne.
Qed.

(** [reset_student_session] leaves the teacher's state alone: it removes
    the [student_] keys of [st.session_state] and the four student
    cookies, sets its flag, and keeps every other key and cookie, such as
    [teacher_session_id]. *)
Theorem reset_student_session_keeps_teacher ss cookies :
  let ks := ["student_session_id"; "student_nickname_id"; "student_pin";
             "student_session_expiry"] in
  let '(ss', cookies') := reset_student_session ss cookies in
  ss' !! "_student_reset_in_progress" = Some (JBool true) /\
  (forall k, String.prefix "student_" k = true -> ss' !! k = None) /\
  (forall k, String.prefix "student_" k = false -> k <> "_student_reset_in_progress" ->
     ss' !! k = ss !! k) /\
  (forall k, k ∈ ks -> cookies' !! k = None) /\
  (forall k, k ∉ ks -> cookies' !! k = cookies !! k).
Proof.
  cbv beta iota zeta delta [reset_student_session]. split; [|split; [|split; [|split]]].
  - rewrite (lookup_filter_key (String.prefix "student_")). simpl.
    by rewrite lookup_insert_eq.
  - intros k Hk. by rewrite (lookup_filter_key (String.prefix "student_")), Hk.
  - intros k Hk Hne. rewrite (lookup_filter_key (String.prefix "student_")), Hk.
    by rewrite lookup_insert_ne.
  - intros k Hk. rewrite pop_all_lookup. by rewrite bool_decide_true.
  - intros k Hk. rewrite pop_all_lookup. by rewrite bool_decide_false.
Qed.

(* ================================================================== *)
(** * Group names *)

Lemma mapM_res_map {B C} (g : B -> res C) (f : B -> C) (l : list B) :
  (forall x, x ∈ l -> g x = Ok (f x)) -> mapM g l = Ok (map f l).
Proof.
  intros Hg. induction l as [|x l IH]; [reflexivity|]. simpl. rewrite Hg by by left.
  cbn [mbind res_mbind res_bind]. fold (mapM g l).
  rewrite IH by (intros y Hy; apply Hg; by right). reflexivity.
Qed.

Lemma lookup_map_seq {B} (g : nat -> B) n i :
  map g (seq 0 n) !! i = if decide (i < n) then Some (g i) else None.
Proof.
  change (map g (seq 0 n)) with (g <$> seq 0 n). rewrite list_lookup_fmap.
  destruct (decide (i < n)).
  - by rewrite lookup_seq_lt.
  - by rewrite lookup_seq_ge by lia.
Qed.

Lemma cycle_names_nodup (pool : list string) n :
  NoDup pool -> pool <> [] ->
  (NoDup (map (fun idx => nth (idx mod length pool) pool EmptyString) (seq 0 n))
   <-> n <= length pool).
Proof.
  intros Hnd Hne. assert (HL : 0 < length pool) by (destruct pool; simpl; [done|lia]).
  set (L := length pool) in *. split.
  - intros Hn. destruct (decide (n <= L)) as [|Hgt]; [done|exfalso].
    pose proof (NoDup_lookup _ 0 L (nth 0 pool EmptyString) Hn) as H.
    rewrite !lookup_map_seq in H.
    rewrite !decide_True in H by lia.
    rewrite Nat.Div0.mod_0_l, Nat.Div0.mod_same in H. specialize (H eq_refl eq_refl). lia.
  - intros Hn. apply NoDup_alt. intros i j x Hi Hj.
    rewrite lookup_map_seq in Hi, Hj.
    destruct (decide (i < n)); [|done]. destruct (decide (j < n)); [|done].
    injection Hi as Hi. injection Hj as Hj.
    rewrite Nat.mod_small in Hi, Hj by lia.
    destruct (nth_lookup_or_length pool i EmptyString) as [Hpi|]; [|lia].
    destruct (nth_lookup_or_length pool j EmptyString) as [Hpj|]; [|lia].
    rewrite Hi in Hpi. rewrite Hj in Hpj. exact (NoDup_lookup pool i j x Hnd Hpi Hpj).
Qed.

Lemma theme_pools_ok theme pool :
  dict_get theme THEME_GROUP_NAMES = Some pool -> NoDup pool /\ pool <> [].
Proof.
  unfold THEME_GROUP_NAMES. simpl.
  repeat (destruct (String.eqb theme _);
          [intros H; injection H as <-; split;
           [apply (bool_decide_unpack _); vm_compute; reflexivity|discriminate]|]).
  discriminate.
Qed.

(** [create_groups_ext] never fails on naming its groups.  For a theme
    without a name list (such as "Generico") the groups are named
    "Gruppo 1", "Gruppo 2", ..., all different; for a theme of
    [THEME_GROUP_NAMES] the names cycle through its list, so they are
    all different exactly when there are no more groups than names in
    the list, and group [i + length pool] gets the name of group [i]. *)
Theorem group_names_cycle theme n :
  exists names, group_names theme n = Ok names /\ length names = n /\
  match dict_get theme THEME_GROUP_NAMES with
  | None => NoDup names
  | Some pool =>
      (NoDup names <-> n <= length pool) /\
      (forall i, i + length pool < n -> names !! i = names !! (i + length pool))
  end.
Proof.
  unfold group_names. destruct (dict_get theme THEME_GROUP_NAMES) as [pool|] eqn:E.
  - destruct (theme_pools_ok theme pool E) as [Hnd Hne]. simpl.
    assert (HL : length pool <> 0) by (destruct pool; simpl; [done|lia]).
    eexists. rewrite (mapM_res_map _ (fun idx => nth (idx mod length pool) pool EmptyString)).
    2:{ intros x _. apply Nat.eqb_neq in HL. by rewrite HL. }
    split; [reflexivity|]. split; [by rewrite length_map, length_seq|]. split.
    + by apply cycle_names_nodup.
    + intros i Hi. rewrite !lookup_map_seq, !decide_True by lia. f_equal.
      replace (i + length pool) with (i + 1 * length pool) by lia.
      by rewrite Nat.Div0.mod_add.
  - simpl. set (f := fun i => String.append "Gruppo " (pretty (i + 1))).
    assert (Hf : forall i j, f i = f j -> i = j).
    { intros i j H. unfold f in H. apply (inj (String.append _)) in H.
      apply (inj pretty) in H. lia. }
    destruct n as [|n]; [eexists; split; [reflexivity|]; split; [done|constructor]|].
    eexists. rewrite (mapM_res_map _ f).
    2:{ intros x Hx. apply list_elem_of_In, in_seq in Hx.
        rewrite length_map, length_seq.
        assert (Hm : x mod S n = x) by (apply Nat.mod_small; lia).
        cbn [Nat.eqb]. rewrite Hm, nth_lookup, lookup_map_seq.
        by rewrite decide_True by lia. }
    split; [reflexivity|]. split; [by rewrite length_map, length_seq|].
    change (map f (seq 0 (S n))) with (f <$> seq 0 (S n)).
    apply NoDup_fmap_2_strong; [intros i j _ _; apply Hf|apply NoDup_seq].
Qed.

(* ================================================================== *)
(** * Bounds of the similarity *)

Lemma jaccard_bounds (i u : nat) :
  (i <= u)%nat -> u <> 0 -> (0 <= Q_of_nat i / Q_of_nat u <= 1)%Q.
Proof.
  intros Hiu Hu. assert (Hp : (0 < Q_of_nat u)%Q) by (unfold Q_of_nat, Qlt; simpl; lia).
  split.
  - apply Qle_shift_div_l; [done|]. rewrite Qmult_0_l. unfold Q_of_nat, Qle; simpl; lia.
  - apply Qle_shift_div_r; [done|]. rewrite Qmult_1_l. unfold Q_of_nat, Qle; simpl; lia.
Qed.

Lemma add_jaccard_bounds (w : gmap string Q) k s1 s2 score q :
  (0 <= wget w k)%Q -> add_jaccard w k s1 s2 score = Ok q ->
  (score <= q <= score + wget w k)%Q.
Proof.
  unfold add_jaccard. intros Hw. destruct (set_truthy s1 || set_truthy s2) eqn:E.
  - unfold py_div. destruct (Qeq_bool _ 0%Q) eqn:Z; [discriminate|].
    unfold mbind, res_mbind, mret, res_ret. cbn [res_bind]. intros H. injection H as <-.
    destruct (jaccard_bounds (size (s1 ∩ s2)) (size (s1 ∪ s2))) as [J0 J1].
    { apply subseteq_size. set_solver. }
    { by apply size_union_pos. }
    set (j := (Q_of_nat (size (s1 ∩ s2)) / Q_of_nat (size (s1 ∪ s2)))%Q) in *.
    assert (0 <= wget w k * j)%Q by (apply Qmult_le_0_compat; done).
    assert (j * wget w k <= 1 * wget w k)%Q by (apply Qmult_le_compat_r; done).
    lra.
  - unfold mret, res_ret. intros H. injection H as <-. lra.
Qed.

(** With non-negative weights for its five categories,
    [compute_similarity_ext] returns a score between 0 and the sum of
    those weights: each Jaccard ratio lies in [0, 1] and each equality
    test adds the weight or nothing. *)
Theorem compute_similarity_ext_bounds json_loads (a b : profile) (w : gmap string Q) q :
  Forall (fun k => 0 <= wget w k)%Q
    ["hobby"; "approccio"; "materie"; "obiettivi"; "future_role"] ->
  compute_similarity_ext json_loads a b w = Ok q ->
  (0 <= q <= sim_total w)%Q.
Proof.
  intros Hw. rewrite !Forall_cons in Hw. destruct Hw as (Hh & Ha & Hm & Ho & Hf & _).
  unfold sim_total, compute_similarity_ext. unfold mbind, res_mbind.
  destruct (add_jaccard w "hobby" _ _ 0%Q) as [q1|] eqn:E1; cbn [res_bind]; [|discriminate].
  apply add_jaccard_bounds in E1; [|done].
  match goal with |- context [add_jaccard w "materie" ?x ?y ?s] =>
    assert (Hs : (0 <= s <= q1 + wget w "approccio")%Q)
      by (repeat case_match; lra);
    destruct (add_jaccard w "materie" x y s) as [q2|] eqn:E2; cbn [res_bind]; [|discriminate];
    apply add_jaccard_bounds in E2; [|done] end.
  match goal with |- context [add_jaccard w "obiettivi" ?x ?y ?s] =>
    destruct (add_jaccard w "obiettivi" x y s) as [q3|] eqn:E3; cbn [res_bind]; [|discriminate];
    apply add_jaccard_bounds in E3; [|done] end.
  unfold mret, res_ret. intros H. injection H as <-. repeat case_match; lra.
Qed.




Lemma add_jaccard_self (w : gmap string Q) k s score q :
  set_truthy s = true -> add_jaccard w k s s score = Ok q -> (q == score + wget w k)%Q.
Proof.
  intros Hs. unfold add_jaccard. rewrite Hs. simpl.
  unfold py_div. destruct (Qeq_bool _ 0%Q) eqn:Z; [discriminate|].
  unfold mbind, res_mbind, mret, res_ret. cbn [res_bind]. intros H. injection H as <-.
  assert (s ∩ s = s) as -> by set_solver. assert (s ∪ s = s) as U by set_solver. rewrite U in Z |- *.
  unfold Qdiv. rewrite Qmult_inv_r; [lra|].
  intros Hz. apply Qeq_bool_iff in Hz. congruence.
Qed.

Lemma text_eqb_refl x : text_eqb x x = true.
Proof. destruct x; simpl; [apply String.eqb_refl|reflexivity]. Qed.

(** A profile with all five categories filled in (the set-valued ones
    non-empty after [normalize_field]) has the largest similarity with
    itself: the sum of the five weights, whatever their sign. *)
Theorem compute_similarity_ext_self json_loads (p : profile) (w : gmap string Q) q :
  set_truthy (normalize_field json_loads (hobby p)) = true ->
  text_truthy (approccio p) = true ->
  set_truthy (normalize_field json_loads (materie_fatte p)
              ∪ normalize_field json_loads (materie_dafare p)) = true ->
  set_truthy (normalize_field json_loads (obiettivi p)) = true ->
  text_truthy (future_role p) = true ->
  compute_similarity_ext json_loads p p w = Ok q ->
  (q == sim_total w)%Q.
Proof.
  intros Hh Ha Hm Ho Hf. unfold sim_total, compute_similarity_ext, mbind, res_mbind.
  destruct (add_jaccard w "hobby" _ _ 0%Q) as [q1|] eqn:E1; cbn [res_bind]; [|discriminate].
  apply add_jaccard_self in E1; [|done].
  rewrite Ha, text_eqb_refl. simpl andb. cbn iota.
  match goal with |- context [add_jaccard w "materie" ?x ?y ?s] =>
    destruct (add_jaccard w "materie" x y s) as [q2|] eqn:E2; cbn [res_bind]; [|discriminate];
    apply add_jaccard_self in E2; [|done] end.
  match goal with |- context [add_jaccard w "obiettivi" ?x ?y ?s] =>
    destruct (add_jaccard w "obiettivi" x y s) as [q3|] eqn:E3; cbn [res_bind]; [|discriminate];
    apply add_jaccard_self in E3; [|done] end.
  rewrite Hf, text_eqb_refl. simpl andb. cbn iota.
  unfold mret, res_ret. intros H. injection H as <-. lra.
Qed.

Lemma compute_similarity_ext_bounds_witness :
  exists q, compute_similarity_ext json_loads_subset prof_anna prof_bruno w_sliders = Ok q /\
    (0 <= q <= sim_total w_sliders)%Q.
Proof.
  eexists. split; [vm_compute; reflexivity|].
  apply (compute_similarity_ext_bounds json_loads_subset prof_anna prof_bruno w_sliders).
  - repeat constructor; apply Qle_bool_iff; vm_compute; reflexivity.
  - vm_compute. reflexivity.
Defined.


Lemma compute_similarity_ext_self_witness :
  exists q, compute_similarity_ext json_loads_subset prof_anna prof_anna w_sliders = Ok q /\
    (q == sim_total w_sliders)%Q.
Proof.
  eexists. split; [vm_compute; reflexivity|].
  apply (compute_similarity_ext_self json_loads_subset prof_anna w_sliders);
    vm_compute; reflexivity.
Defined.
